(** * BERT_Ori.py: chunking, flattening, embedding store and aggregation

    A shallow embedding of the data-preparation core of
    [Models/Malay DL Models/BERT_Ori.py]:

    - [tokenize_and_chunk]          (lines 98-110)
    - [flatten_chunks]              (lines 128-138)
    - [aggregate_predictions]       (lines 142-149)
    - [vectorize_text]              (lines 152-173)
    - [load_embeddings_and_labels]  (lines 176-188)

    Python integers are [Z]; Python lists are [list]; a raised exception is
    the [Raise] branch of [result].  The tokenizer, the encoder and numpy's
    [mean] are outside the repository and enter as parameters; [Float64.mean]
    is numpy's mean on binary64 values, for the instances that name
    values.  The npy
    blocks of the store file are kept at block granularity: a file is the
    list of arrays that successive [np.save] calls appended to it. *)

From Stdlib Require Import ZArith String List Lia Bool QArith.
From Corelib Require PrimFloat.
Import ListNotations.
Open Scope Z_scope.

Set Implicit Arguments.

(** ** Exceptions and results *)

(** The Python exceptions the modelled functions can raise. *)
Inductive exn : Type :=
| ValueError
| ZeroDivisionError
| AssertionError
| EOFError
| FileNotFoundError.

Inductive result (A : Type) : Type :=
| Ok (a : A)
| Raise (e : exn).

Arguments Ok {A} a.
Arguments Raise {A} e.

Definition bind {A B : Type} (r : result A) (k : A -> result B) : result B :=
  match r with
  | Ok a => k a
  | Raise e => Raise e
  end.

Declare Scope py_scope.
Notation "x <- r ;; k" := (bind r (fun x => k))
  (at level 61, r at next level, right associativity) : py_scope.
Open Scope py_scope.

(** ** Python built-ins used by the script *)

Module Py.

(** [len(l)] *)
Definition len {A : Type} (l : list A) : Z := Z.of_nat (length l).

(** Number of elements of [range(lo, hi, step)] for a non-zero [step],
    as CPython computes it. *)
Definition range_length (lo hi step : Z) : Z :=
  if (0 <? step) && (lo <? hi) then 1 + (hi - 1 - lo) / step
  else if (step <? 0) && (hi <? lo) then 1 + (lo - 1 - hi) / (- step)
  else 0.

(** [range(start, stop, step)]: a zero step raises [ValueError]. *)
Definition range (start stop step : Z) : result (list Z) :=
  if step =? 0 then Raise ValueError
  else Ok (map (fun k => start + Z.of_nat k * step)
               (seq 0 (Z.to_nat (range_length start stop step)))).

(** Clamping of one slice bound against a sequence of length [n]:
    a negative bound counts from the end, and both are cut to [0..n]. *)
Definition adjust_index (n i : Z) : Z :=
  if i <? 0 then Z.max 0 (i + n) else Z.min i n.

(** [l[start:stop]] *)
Definition slice {A : Type} (l : list A) (start stop : Z) : list A :=
  let n := len l in
  let lo := adjust_index n start in
  let hi := adjust_index n stop in
  firstn (Z.to_nat (hi - lo)) (skipn (Z.to_nat lo) l).

(** [a % b]: floor modulo, [ZeroDivisionError] for [b = 0]. *)
Definition modulo (a b : Z) : result Z :=
  if b =? 0 then Raise ZeroDivisionError else Ok (a mod b).

(** [zip(xs, ys)] stops at the end of the shorter argument. *)
Definition zip {A B : Type} (xs : list A) (ys : list B) : list (A * B) :=
  combine xs ys.

(** [sum(xs)] over integers. *)
Definition sum (xs : list Z) : Z := fold_left Z.add xs 0.

End Py.

(** ** Physical batches *)

(** [batching b l bs]: the batches [bs], joined, are [l]; every batch but
    the last holds [b] elements and the last between 1 and [b]. *)
Inductive batching {A : Type} (b : nat) : list A -> list (list A) -> Prop :=
| batching_nil : batching b [] []
| batching_last (l : list A) :
    (0 < length l <= b)%nat -> batching b l [l]
| batching_cons (x l : list A) (bs : list (list A)) :
    length x = b -> batching b l bs -> batching b (x ++ l) (x :: bs).

(** ** The tokenizer boundary *)

(** The part of [transformers.BertTokenizer] the script touches. *)
Record Tokenizer : Type := {
  encode : string -> list Z;       (* encode(text, add_special_tokens=True) *)
  decode : list Z -> string;
  cls_token_id : Z;
  sep_token_id : Z
}.

Definition MAX_SEQ_LENGTH : Z := 512.

(** ** Chunker: [tokenize_and_chunk] *)

Definition tokenize_and_chunk (text : string) (tokenizer : Tokenizer)
    (max_length : Z) : result (list (list Z)) :=
  let tokenized := encode tokenizer text in
  let adjusted_max_length := max_length - 10 in
  starts <- Py.range 0 (Py.len tokenized) adjusted_max_length ;;
  Ok (map (fun i =>
             [cls_token_id tokenizer]
               ++ Py.slice tokenized i (i + adjusted_max_length)
               ++ [sep_token_id tokenizer])
          starts).

(** Stripping the two markers that [tokenize_and_chunk] wraps around a window. *)
Definition unwrap (chunk : list Z) : list Z := removelast (tl chunk).

(** What [encode(text, add_special_tokens=True)] of a BERT tokenizer
    returns: the ids of the text's word pieces between the tokenizer's own
    two markers. *)
Definition adds_special_tokens (tokenizer : Tokenizer)
    (word_piece_ids : string -> list Z) : Prop :=
  forall text,
    encode tokenizer text
    = [cls_token_id tokenizer] ++ word_piece_ids text ++ [sep_token_id tokenizer].

(** A token id that is one of the two markers. *)
Definition is_marker (tokenizer : Tokenizer) (id : Z) : Prop :=
  id = cls_token_id tokenizer \/ id = sep_token_id tokenizer.

(** A tokenizer that adds its markers around the given word-piece ids
    (for examples). *)
Definition marking_tokenizer (word_piece_ids : string -> list Z) : Tokenizer :=
  {| encode := fun text => [101] ++ word_piece_ids text ++ [102];
     decode := fun _ => EmptyString;
     cls_token_id := 101;
     sep_token_id := 102 |}.

(** The word pieces of a text that has none. *)
Definition no_word_piece : string -> list Z := fun _ => [].

(** A tokenizer whose [encode] returns the given token ids (for examples). *)
Definition const_tokenizer (ids : list Z) : Tokenizer :=
  {| encode := fun _ => ids;
     decode := fun _ => EmptyString;
     cls_token_id := 101;
     sep_token_id := 102 |}.

(** ** [combine_text] *)

(** A row of the dataset: the three columns the script reads. *)
Record Row : Type := {
  Tokenized_Title : string;
  Tokenized_Full_Context : string;
  classification_result : string
}.

Section CombineText.

(** [ast.literal_eval] on a column that holds the literal of a list of
    strings, taken as given; it raises on a malformed literal. *)
Variable literal_eval : string -> result (list string).

(** The module-level global. *)
Variable tokenizer : Tokenizer.

Definition combine_text (row : Row) : result (list (list Z)) :=
  tokenized_title <- literal_eval (Tokenized_Title row) ;;
  tokenized_full_context <- literal_eval (Tokenized_Full_Context row) ;;
  let title_text := ("[TITLE] " ++ String.concat " " tokenized_title)%string in
  let content_text :=
    (" [CONTENT] " ++ String.concat " " tokenized_full_context)%string in
  let combined_text := (title_text ++ content_text)%string in
  tokenize_and_chunk combined_text tokenizer MAX_SEQ_LENGTH.

End CombineText.

(** ** Flattener: [flatten_chunks] *)

Section Flattener.

Variables (chunk label : Type).

(** The inner loop, [for chunk in text]: one append to each output list. *)
Definition flatten_text (acc : list chunk * list label)
    (item : list chunk * label) : list chunk * list label :=
  let '(text, lbl) := item in
  fold_left (fun acc c => (fst acc ++ [c], snd acc ++ [lbl])) text acc.

Definition flatten_chunks (texts : list (list chunk)) (labels : list label)
    : result (list chunk * list label) :=
  let '(all_texts, all_labels) :=
    fold_left flatten_text (Py.zip texts labels) ([], []) in
  (* assert len(all_texts) == len(all_labels) *)
  if Py.len all_texts =? Py.len all_labels
  then Ok (all_texts, all_labels)
  else Raise AssertionError.

(** The label of one document, once per chunk of the document. *)
Definition spread (item : list chunk * label) : list label :=
  repeat (snd item) (length (fst item)).

(** Position in the flattened output at which document [d] starts. *)
Definition chunk_offset (texts : list (list chunk)) (d : nat) : nat :=
  length (concat (firstn d texts)).

End Flattener.

(** ** Aggregator: [aggregate_predictions] *)

Section Aggregator.

Variables (chunk num : Type).

(** [np.mean], taken as given. *)
Variable np_mean : list num -> num.

(** One iteration of [for chunks in text_chunks]; the state is
    [(aggregated_predictions, idx)]. *)
Definition aggregate_step (predictions : list num)
    (st : list num * Z) (chunks : list chunk) : list num * Z :=
  let '(aggregated_predictions, idx) := st in
  let num_chunks := Py.len chunks in
  (aggregated_predictions
     ++ [np_mean (Py.slice predictions idx (idx + num_chunks))],
   idx + num_chunks).

Definition aggregate_predictions (text_chunks : list (list chunk))
    (predictions : list num) : list num :=
  fst (fold_left (aggregate_step predictions) text_chunks ([], 0)).

(** Start of document [d]'s slice: the chunk counts before it, summed. *)
Definition slice_start (text_chunks : list (list chunk)) (d : nat) : Z :=
  Py.sum (map (@Py.len chunk) (firstn d text_chunks)).

(** The aggregate in the words of its description: from position [start]
    on, one mean per document, each over the slice that begins where the
    previous document's slice ended. *)
Fixpoint slice_means (text_chunks : list (list chunk))
    (predictions : list num) (start : Z) : list num :=
  match text_chunks with
  | [] => []
  | chunks :: rest =>
      np_mean (Py.slice predictions start (start + Py.len chunks))
        :: slice_means rest predictions (start + Py.len chunks)
  end.

End Aggregator.

(** Exact rational arithmetic as an instance of the number type, for
    examples of the theorems that hold for every mean: a value, or [NaN]
    for the mean of an empty slice.  It is not numpy's mean of floats,
    which rounds: see [Float64.mean]. *)
Inductive rnum : Type :=
| Num (q : Q)
| NaN.

Fixpoint rsum (xs : list rnum) : option Q :=
  match xs with
  | [] => Some 0%Q
  | Num q :: rest => option_map (Qplus q) (rsum rest)
  | NaN :: _ => None
  end.

(** The exact arithmetic mean, in lowest terms. *)
Definition rmean (xs : list rnum) : rnum :=
  match xs, rsum xs with
  | _ :: _, Some s => Num (Qred (s / inject_Z (Py.len xs)))
  | _, _ => NaN
  end.

(** ** numpy's mean of binary64 values *)

Module Float64.

Import PrimFloat.

(** [res += a[i]] over the values, from left to right. *)
Definition sum_from (acc : float) (xs : list float) : float :=
  fold_left add xs acc.

(** [r[j] += a[i + j]] for the eight accumulators. *)
Fixpoint add_lanes (r block : list float) : list float :=
  match r, block with
  | x :: r', y :: block' => add x y :: add_lanes r' block'
  | _, _ => r
  end.

(** The loop [for (i = 8; i < n - n % 8; i += 8)] of the unrolled block:
    the accumulators take eight values at a time while eight are left. *)
Fixpoint unrolled_loop (fuel : nat) (r rest : list float)
    : list float * list float :=
  match fuel with
  | O => (r, rest)
  | S fuel' =>
      if (8 <=? length rest)%nat
      then unrolled_loop fuel' (add_lanes r (firstn 8 rest)) (skipn 8 rest)
      else (r, rest)
  end.

(** The sum of 8 to 128 values: eight accumulators, added up in pairs,
    then the values that are left, one by one. *)
Definition block_sum (xs : list float) : float :=
  let '(r, rest) := unrolled_loop (length xs) (firstn 8 xs) (skipn 8 xs) in
  match r with
  | [r0; r1; r2; r3; r4; r5; r6; r7] =>
      sum_from (add (add (add r0 r1) (add r2 r3))
                    (add (add r4 r5) (add r6 r7))) rest
  | _ => sum_from neg_zero xs
  end.

(** numpy's pairwise summation: fewer than 8 values are added from left
    to right starting from [-0.0], up to 128 values go through the
    unrolled block, and a longer array is cut near its middle, at a
    multiple of 8.  [fuel] bounds the depth of the cuts; the length of the
    list is enough. *)
Fixpoint pairwise_sum (fuel : nat) (xs : list float) : float :=
  let n := length xs in
  if (n <? 8)%nat then sum_from neg_zero xs
  else if (n <=? 128)%nat then block_sum xs
  else match fuel with
       | O => block_sum xs
       | S fuel' =>
           let n2 := (n / 2 - (n / 2) mod 8)%nat in
           add (pairwise_sum fuel' (firstn n2 xs))
               (pairwise_sum fuel' (skipn n2 xs))
       end.

(** A count as a float (exact below 2^53). *)
Fixpoint of_pos (p : positive) : float :=
  match p with
  | xH => one
  | xO q => mul two (of_pos q)
  | xI q => add (mul two (of_pos q)) one
  end.

Definition of_nat (n : nat) : float :=
  match n with
  | O => zero
  | S _ => of_pos (Pos.of_nat n)
  end.

(** [np.mean] of a one-dimensional array of binary64 values: the sum,
    accumulated onto the identity [0.0] of the reduction, divided by the
    count; the mean of no value is [0.0 / 0.0], a nan. *)
Definition mean (xs : list float) : float :=
  div (add zero (pairwise_sum (length xs) xs)) (of_nat (length xs)).

End Float64.

(** ** numpy arrays and the npy blocks of a file *)

Module Np.

Section Arrays.

(** The float values an encoder produces (32-bit floats). *)
Variable F : Type.

Inductive scalar : Type :=
| Float32 (x : F)
| Int32 (z : Z).

(** An array: its shape and its elements in row-major order. *)
Record ndarray : Type := mk_ndarray {
  shape : list nat;
  data : list scalar
}.

Definition same_shape (s1 s2 : list nat) : bool :=
  if list_eq_dec Nat.eq_dec s1 s2 then true else false.

(** Arrays of shape [inner] stacked along a new first axis. *)
Definition stacked (inner : list nat) (arrays : list ndarray) : ndarray :=
  mk_ndarray (length arrays :: inner) (concat (map data arrays)).

(** [np.array(arrays, dtype=np.float32)] on a list of float arrays:
    stacks equally shaped arrays along a new first axis; arrays of
    different shapes raise [ValueError]. *)
Definition array_of_arrays (arrays : list ndarray) : result ndarray :=
  match arrays with
  | [] => Ok (mk_ndarray [0%nat] [])
  | a :: _ =>
      if forallb (fun b => same_shape (shape b) (shape a)) arrays
      then Ok (stacked (shape a) arrays)
      else Raise ValueError
  end.

(** Conversion of an integer to a 32-bit signed one, by wrap-around.  On
    an integer outside the 32-bit range numpy wraps or raises
    [OverflowError], with its version and the integer's type; the
    theorems about the writer take labels that satisfy [is_int32], on
    which the conversion changes nothing. *)
Definition to_int32 (z : Z) : Z := (z + 2 ^ 31) mod 2 ^ 32 - 2 ^ 31.

(** The integers that the conversion leaves as they are. *)
Definition is_int32 (z : Z) : Prop := - 2 ^ 31 <= z < 2 ^ 31.

(** [np.array(ints, dtype=np.int32)] *)
Definition array_of_ints (xs : list Z) : ndarray :=
  mk_ndarray [length xs] (map (fun z => Int32 (to_int32 z)) xs).

(** Length of the first axis, [a.shape[0]]. *)
Definition rows (a : ndarray) : nat := hd 0%nat (shape a).

(** [np.concatenate(arrays, axis=0)]: raises [ValueError] on an empty
    list, on a zero-dimensional array and when the arrays disagree on
    the axes after the first. *)
Definition concatenate (arrays : list ndarray) : result ndarray :=
  match arrays with
  | [] => Raise ValueError
  | a :: rest =>
      match shape a with
      | [] => Raise ValueError
      | _ :: inner =>
          if forallb (fun b => match shape b with
                               | [] => false
                               | _ :: s => same_shape s inner
                               end) rest
          then Ok (mk_ndarray
                     (fold_left Nat.add (map rows arrays) 0%nat :: inner)
                     (concat (map data arrays)))
          else Raise ValueError
      end
  end.

(** An open file is the list of blocks from the read position on;
    [np.save] writes one block and [np.load] reads one back. *)
Definition file : Type := list ndarray.

(** [np.load(f)]: the next block and the rest of the file; [EOFError]
    when no data is left. *)
Definition load (f : file) : result (ndarray * file) :=
  match f with
  | [] => Raise EOFError
  | a :: rest => Ok (a, rest)
  end.

End Arrays.

Arguments mk_ndarray {F} shape data.
Arguments Int32 {F} z.

End Np.

(** ** The embedding store: [vectorize_text], [load_embeddings_and_labels] *)

Section Store.

Variable F : Type.

Let ndarray : Type := Np.ndarray F.

(** The files of the working directory: absent, or a list of blocks. *)
Definition filesystem : Type := string -> option (Np.file F).

(** [with open(filename, "ab") as f: np.save(f, a); np.save(f, b)]:
    the file is created when absent and grows at its end. *)
Definition append_blocks (fs : filesystem) (filename : string)
    (blocks : list ndarray) : filesystem :=
  fun name =>
    if String.eqb name filename
    then Some (match fs filename with
               | Some old => old ++ blocks
               | None => blocks
               end)
    else fs name.

(** The part of the encoder the script touches:
    [bert_model.vectorize(list_of_strings)]. *)
Record BertModel : Type := { vectorize : list string -> ndarray }.

(** The two module-level globals. *)
Variable bert_model : BertModel.
Variable tokenizer : Tokenizer.

(** The embedding of one chunk, as the loop below obtains it. *)
Definition embed (text : list Z) : ndarray :=
  vectorize bert_model [decode tokenizer text].

(** The loop of [vectorize_text] over [enumerate(zip(texts, labels))],
    from index [i] on, with the buffers [embeddings] and [all_labels]. *)
Fixpoint vectorize_loop (items : list (list Z * Z)) (i num_texts : Z)
    (filename : string) (batch_size : Z)
    (embeddings : list ndarray) (all_labels : list Z) (fs : filesystem)
    : filesystem * result (list Z) :=
  match items with
  | [] => (fs, Ok all_labels)
  | (text, label) :: rest =>
      let embedding := vectorize bert_model [decode tokenizer text] in
      let embeddings := embeddings ++ [embedding] in
      let all_labels := all_labels ++ [label] in
      match Py.modulo (i + 1) batch_size with
      | Raise e => (fs, Raise e)
      | Ok r =>
          if (r =? 0) || (i + 1 =? num_texts) then
            match Np.array_of_arrays embeddings with
            | Raise e => (fs, Raise e)
            | Ok batch_embeddings =>
                let batch_labels := Np.array_of_ints F all_labels in
                let fs := append_blocks fs filename
                            [batch_embeddings; batch_labels] in
                vectorize_loop rest (i + 1) num_texts filename batch_size
                               [] [] fs
            end
          else
            vectorize_loop rest (i + 1) num_texts filename batch_size
                           embeddings all_labels fs
      end
  end.

Definition vectorize_text (texts : list (list Z)) (labels : list Z)
    (filename : string) (batch_size : Z) (fs : filesystem)
    : filesystem * result (list Z) :=
  let num_texts := Py.len texts in
  vectorize_loop (Py.zip texts labels) 0 num_texts filename batch_size
                 [] [] fs.

(** The [while True] loop of [load_embeddings_and_labels]: two loads per
    round; [EOFError] from either one leaves the loop, and the block read
    by the first load of that round is not kept.  The two [np.load] calls
    are written as pattern matches on the remaining blocks (an empty rest
    is [np.load]'s [EOFError]); [read_loop_loads] states the loop in
    terms of [Np.load]. *)
Fixpoint read_loop (f : Np.file F) (embeddings labels : list ndarray)
    : list ndarray * list ndarray :=
  match f with
  | [] => (embeddings, labels)
  | batch_embeddings :: f1 =>
      match f1 with
      | [] => (embeddings, labels)
      | batch_labels :: f2 =>
          read_loop f2 (embeddings ++ [batch_embeddings])
                    (labels ++ [batch_labels])
      end
  end.

Definition load_embeddings_and_labels (file_path : string)
    (fs : filesystem) : result (ndarray * ndarray) :=
  match fs file_path with
  | None => Raise FileNotFoundError
  | Some f =>
      let '(embeddings, labels) := read_loop f [] [] in
      e <- Np.concatenate embeddings ;;
      l <- Np.concatenate labels ;;
      Ok (e, l)
  end.

(** What a file holds, an absent file holding nothing. *)
Definition contents (fs : filesystem) (filename : string) : Np.file F :=
  match fs filename with
  | Some blocks => blocks
  | None => []
  end.

(** A destination nothing was written to: absent or empty. *)
Definition fresh (fs : filesystem) (filename : string) : Prop :=
  fs filename = None \/ fs filename = Some [].

(** The file layout: batch-pairs, each an embedding block followed by its
    label block. *)
Definition pair_blocks (pairs : list (ndarray * ndarray)) : Np.file F :=
  flat_map (fun p => [fst p; snd p]) pairs.

(** A batch-pair of [n] records: embeddings of shape [n :: inner], labels of
    shape [[n]]. *)
Definition well_formed_pair (inner : list nat) (p : ndarray * ndarray) : Prop :=
  exists n, Np.shape (fst p) = n :: inner /\ Np.shape (snd p) = [n].

(** The blocks that flushing the given batches of embeddings and labels
    leaves in the file. *)
Definition batch_blocks (inner : list nat)
    (batches : list (list ndarray * list Z)) : Np.file F :=
  pair_blocks (map (fun b => (Np.stacked inner (fst b),
                              Np.array_of_ints F (snd b))) batches).

(** The number of records in a sequence of batch-pairs. *)
Definition record_count (pairs : list (ndarray * ndarray)) : nat :=
  fold_left Nat.add (map (fun p => Np.rows (fst p)) pairs) 0%nat.

End Store.

(** ** Example data *)

(** Three documents of two, zero and one chunk (chunks shown as numbers),
    with their labels. *)
Definition ex_texts : list (list Z) := [[1; 2]; []; [3]].
Definition ex_labels : list Z := [10; 20; 30].

(** Chunk sets of two and three chunks, and of two and two chunks. *)
Definition ex_counts_2_3 : list (list Z) := [[1; 2]; [3; 4; 5]].
Definition ex_counts_2_2 : list (list Z) := [[1; 2]; [3; 4]].

(** The predictions 0.1, 0.9, 0.2, 0.4, 0.6 and 0.1, 0.2, 0.3. *)
Definition ex_predictions_5 : list rnum :=
  [Num (1 # 10); Num (9 # 10); Num (2 # 10); Num (4 # 10); Num (6 # 10)].
Definition ex_predictions_3 : list rnum :=
  [Num (1 # 10); Num (2 # 10); Num (3 # 10)].

(** A tokenizer that decodes [n] token ids to a text of [n] letters, and an
    encoder that returns a 1 x 2 array holding the length of the text and
    a constant, with rationals standing for the float values. *)
Definition ex_tokenizer : Tokenizer :=
  {| encode := fun _ => [];
     decode := fun ids => String.concat EmptyString (map (fun _ => "a"%string) ids);
     cls_token_id := 101;
     sep_token_id := 102 |}.

Definition ex_bert_model : BertModel Q :=
  {| vectorize := fun texts =>
       Np.mk_ndarray [1%nat; 2%nat]
         [Np.Float32 (inject_Z (Z.of_nat (String.length (hd EmptyString texts))));
          Np.Float32 (7 # 10)] |}.

(** Three chunks of one, two and three token ids, and their labels. *)
Definition ex_chunks : list (list Z) := [[101]; [101; 102]; [101; 5; 102]].
Definition ex_chunk_labels : list Z := [0; 1; 1].

(** No file anywhere, and an existing empty file under every name. *)
Definition no_files : filesystem Q := fun _ => None.
Definition empty_files : filesystem Q := fun _ => Some [].

(** A store of one batch-pair of two records followed by an embedding
    block that has no label block. *)
Definition ex_embedding_block : Np.ndarray Q :=
  Np.mk_ndarray [2%nat; 1%nat; 2%nat]
    [Np.Float32 (1 # 1); Np.Float32 (7 # 10); Np.Float32 (2 # 1); Np.Float32 (7 # 10)].
Definition ex_label_block : Np.ndarray Q :=
  Np.mk_ndarray [2%nat] [Np.Int32 0; Np.Int32 1].
Definition ex_trailing_block : Np.ndarray Q :=
  Np.mk_ndarray [1%nat; 1%nat; 2%nat] [Np.Float32 (3 # 1); Np.Float32 (7 # 10)].
Definition truncated_store : filesystem Q :=
  fun _ => Some [ex_embedding_block; ex_label_block; ex_trailing_block].

(** * Properties *)

Unset Implicit Arguments.

(** ** Python slices and ranges *)

Section PyFacts.

Context {A : Type}.

Lemma len_nonneg (l : list A) : 0 <= Py.len l.
Proof. unfold Py.len. lia. Qed.

Lemma len_app (l1 l2 : list A) : Py.len (l1 ++ l2) = Py.len l1 + Py.len l2.
Proof. unfold Py.len. rewrite length_app. lia. Qed.

(** A slice whose lower bound lies inside the list is a [firstn] of a
    [skipn]: the upper bound is cut at the end of the list. *)
Lemma slice_firstn_skipn (l : list A) (i a : Z) :
  0 <= i <= Py.len l -> 0 <= a ->
  Py.slice l i (i + a) = firstn (Z.to_nat a) (skipn (Z.to_nat i) l).
Proof.
  intros Hi Ha. unfold Py.slice, Py.adjust_index.
  assert (Hlen : Py.len l = Z.of_nat (length l)) by reflexivity.
  destruct (i <? 0) eqn:E1; [apply Z.ltb_lt in E1; lia|].
  destruct (i + a <? 0) eqn:E2; [apply Z.ltb_lt in E2; lia|].
  rewrite (Z.min_l i) by lia.
  destruct (Z.le_gt_cases (i + a) (Py.len l)) as [Hle | Hgt].
  - rewrite Z.min_l by lia. f_equal. lia.
  - rewrite Z.min_r by lia.
    assert (Hsk : length (skipn (Z.to_nat i) l) = Z.to_nat (Py.len l - i)).
    { rewrite length_skipn. lia. }
    rewrite !firstn_all2; trivial; rewrite Hsk; lia.
Qed.

Lemma slice_length_le (l : list A) (i a : Z) :
  0 <= i <= Py.len l -> 0 <= a -> Py.len (Py.slice l i (i + a)) <= a.
Proof.
  intros Hi Ha. rewrite slice_firstn_skipn by assumption.
  unfold Py.len. pose proof (firstn_le_length (Z.to_nat a) (skipn (Z.to_nat i) l)).
  lia.
Qed.

(** Consecutive windows of [a] elements, enough of them to cover the list,
    concatenate to the list. *)
Lemma concat_windows (a : nat) :
  (0 < a)%nat ->
  forall (cnt : nat) (l : list A),
    (length l <= cnt * a)%nat ->
    concat (map (fun k => firstn a (skipn (k * a) l)) (seq 0 cnt)) = l.
Proof.
  intros Ha. induction cnt as [|cnt IH]; intros l Hl.
  - destruct l; [reflexivity | simpl in Hl; lia].
  - cbn [seq map concat]. rewrite <- seq_shift, map_map.
    rewrite (map_ext _ (fun k => firstn a (skipn (k * a) (skipn a l)))).
    + rewrite IH.
      * cbn [Nat.mul skipn]. apply firstn_skipn.
      * rewrite length_skipn. lia.
    + intros k. rewrite skipn_skipn. do 2 f_equal. lia.
Qed.

End PyFacts.

Lemma range_length_from_zero (n a : Z) :
  0 <= n -> 0 < a ->
  Py.range_length 0 n a = if 0 <? n then 1 + (n - 1) / a else 0.
Proof.
  intros Hn Ha. unfold Py.range_length.
  destruct (0 <? a) eqn:E; [|apply Z.ltb_ge in E; lia].
  destruct (0 <? n) eqn:E1; cbn [andb].
  - f_equal. f_equal. lia.
  - destruct (a <? 0) eqn:E2; [apply Z.ltb_lt in E2; lia|]. reflexivity.
Qed.

(** The last start of the range is inside the list, and the windows that
    start at the range's elements reach its end. *)
Lemma range_length_bounds (n a : Z) :
  0 <= n -> 0 < a ->
  0 <= Py.range_length 0 n a /\
  n <= Py.range_length 0 n a * a /\
  (forall k, 0 <= k < Py.range_length 0 n a -> k * a <= n - 1).
Proof.
  intros Hn Ha. rewrite range_length_from_zero by assumption.
  destruct (0 <? n) eqn:E.
  - apply Z.ltb_lt in E.
    pose proof (Z.div_pos (n - 1) a ltac:(lia) Ha) as Hq.
    pose proof (Z.mul_div_le (n - 1) a Ha) as Hlo.
    pose proof (Z.mul_succ_div_gt (n - 1) a Ha) as Hhi.
    repeat split; try nia.
  - apply Z.ltb_ge in E. repeat split; lia.
Qed.

(** ** Chunker *)

Section ChunkerFacts.

Variables (text : string) (tokenizer : Tokenizer).

(** With a positive payload length the chunker returns, and its chunks are
    the marker-wrapped consecutive windows of the token sequence. *)
Lemma tokenize_and_chunk_windows (max_length : Z) :
  10 < max_length ->
  let a := Z.to_nat (max_length - 10) in
  tokenize_and_chunk text tokenizer max_length =
  Ok (map (fun k => [cls_token_id tokenizer]
                      ++ firstn a (skipn (k * a) (encode tokenizer text))
                      ++ [sep_token_id tokenizer])
          (seq 0 (Z.to_nat (Py.range_length 0 (Py.len (encode tokenizer text))
                                            (max_length - 10))))).
Proof.
  intros HL a. unfold tokenize_and_chunk, Py.range.
  set (tokenized := encode tokenizer text).
  destruct (max_length - 10 =? 0) eqn:E; [apply Z.eqb_eq in E; lia|].
  cbn [bind]. f_equal. rewrite map_map.
  apply map_ext_in. intros k Hk. apply in_seq in Hk.
  destruct (range_length_bounds (Py.len tokenized) (max_length - 10)
              (len_nonneg tokenized) ltac:(lia)) as (Hc0 & _ & Hk').
  specialize (Hk' (Z.of_nat k) ltac:(lia)).
  cbn [Z.add]. rewrite slice_firstn_skipn by lia.
  do 2 f_equal. f_equal. unfold a.
  rewrite Z2Nat.inj_mul, Nat2Z.id by lia. reflexivity.
Qed.

Lemma unwrap_wrap (c s : Z) (w : list Z) : unwrap ([c] ++ w ++ [s]) = w.
Proof. unfold unwrap. cbn [app tl]. apply removelast_last. Qed.

End ChunkerFacts.

(** C3 (as amended): for every text, tokenizer and [max_length] greater
    than the margin of 10, the chunker returns, and stripping the two
    markers from each chunk and concatenating the payloads in chunk order
    gives back the raw token-id sequence. *)
Theorem chunk_roundtrip (text : string) (tokenizer : Tokenizer) (max_length : Z) :
  10 < max_length ->
  exists chunks,
    tokenize_and_chunk text tokenizer max_length = Ok chunks /\
    concat (map unwrap chunks) = encode tokenizer text.
Proof.
  intros HL. eexists. split.
  - apply tokenize_and_chunk_windows. exact HL.
  - rewrite map_map.
    rewrite (map_ext _ (fun k => firstn (Z.to_nat (max_length - 10))
                                   (skipn (k * Z.to_nat (max_length - 10))
                                          (encode tokenizer text))))
      by (intros k; apply unwrap_wrap).
    apply concat_windows; [lia|].
    destruct (range_length_bounds (Py.len (encode tokenizer text))
                (max_length - 10) (len_nonneg _) ltac:(lia)) as (H0 & Hn & _).
    unfold Py.len in *. nia.
Qed.

Lemma chunk_roundtrip_witness :
  10 < 12 /\
  exists chunks,
    tokenize_and_chunk "" (const_tokenizer [1; 2; 3; 4; 5]) 12 = Ok chunks /\
    concat (map unwrap chunks) = encode (const_tokenizer [1; 2; 3; 4; 5]) "".
Proof.
  split; [lia|].
  apply (chunk_roundtrip "" (const_tokenizer [1; 2; 3; 4; 5]) 12). lia.
Defined.

(** C3 (as stated) fails when [max_length] is below the margin: the range
    of window starts has a negative step and is empty, so a one-token
    sequence yields no chunk and the concatenation is empty. *)
Lemma chunk_roundtrip_below_margin :
  tokenize_and_chunk "" (const_tokenizer [7]) 5 = Ok [] /\
  ~ (forall text tokenizer max_length,
       exists chunks,
         tokenize_and_chunk text tokenizer max_length = Ok chunks /\
         concat (map unwrap chunks) = encode tokenizer text).
Proof.
  split; [reflexivity|].
  intros H. destruct (H EmptyString (const_tokenizer [7]) 5) as (chunks & Hrun & Hcat).
  cbv in Hrun. injection Hrun as <-. discriminate Hcat.
Qed.

(** C4: with [max_length] above the margin the chunker returns; and
    whenever it returns, every chunk is a payload between the start marker
    and the end marker, the payload has at most [max_length - 10] tokens
    and the chunk at most [max_length]. *)
Theorem chunk_bound (text : string) (tokenizer : Tokenizer) (max_length : Z) :
  (10 < max_length ->
   exists chunks, tokenize_and_chunk text tokenizer max_length = Ok chunks) /\
  (forall chunks,
      tokenize_and_chunk text tokenizer max_length = Ok chunks ->
      forall c, In c chunks ->
        exists payload,
          c = [cls_token_id tokenizer] ++ payload ++ [sep_token_id tokenizer] /\
          hd_error c = Some (cls_token_id tokenizer) /\
          last c 0 = sep_token_id tokenizer /\
          Py.len payload <= max_length - 10 /\
          Py.len c <= max_length).
Proof.
  split.
  { intros HL. eexists. apply tokenize_and_chunk_windows. exact HL. }
  intros chunks Hrun c Hc.
  destruct (Z.lt_trichotomy (max_length - 10) 0) as [Hneg | [Hzero | Hpos]].
  - (* negative step: the range is empty *)
    unfold tokenize_and_chunk, Py.range, Py.range_length in Hrun.
    destruct (max_length - 10 =? 0) eqn:E; [apply Z.eqb_eq in E; lia|].
    destruct (0 <? max_length - 10) eqn:E1; [apply Z.ltb_lt in E1; lia|].
    destruct (Py.len (encode tokenizer text) <? 0) eqn:E2.
    { apply Z.ltb_lt in E2. pose proof (len_nonneg (encode tokenizer text)). lia. }
    rewrite andb_false_r in Hrun. cbn in Hrun.
    injection Hrun as <-. destruct Hc.
  - (* zero step: [range] raises *)
    unfold tokenize_and_chunk, Py.range in Hrun. rewrite Hzero in Hrun.
    discriminate.
  - rewrite tokenize_and_chunk_windows in Hrun by lia.
    injection Hrun as <-.
    apply in_map_iff in Hc. destruct Hc as (k & <- & _).
    set (payload := firstn _ _).
    assert (Hp : Py.len payload <= max_length - 10).
    { unfold Py.len, payload.
      pose proof (firstn_le_length (Z.to_nat (max_length - 10))
                    (skipn (k * Z.to_nat (max_length - 10))
                           (encode tokenizer text))).
      lia. }
    exists payload. repeat split; trivial.
    + rewrite app_comm_cons. apply last_last.
    + unfold Py.len in *. cbn [length]. rewrite length_app. cbn [length]. lia.
Qed.

Lemma chunk_bound_witness :
  exists payload,
    [101; 1; 2; 102] = [cls_token_id (const_tokenizer [1; 2; 3; 4; 5])]
                         ++ payload
                         ++ [sep_token_id (const_tokenizer [1; 2; 3; 4; 5])] /\
    hd_error [101; 1; 2; 102]
      = Some (cls_token_id (const_tokenizer [1; 2; 3; 4; 5])) /\
    last [101; 1; 2; 102] 0 = sep_token_id (const_tokenizer [1; 2; 3; 4; 5]) /\
    Py.len payload <= 12 - 10 /\
    Py.len [101; 1; 2; 102] <= 12.
Proof.
  apply (proj2 (chunk_bound "" (const_tokenizer [1; 2; 3; 4; 5]) 12)
           [[101; 1; 2; 102]; [101; 3; 4; 102]; [101; 5; 102]]).
  - reflexivity.
  - simpl. left. reflexivity.
Defined.

(** X1: the number of chunks is the token count divided by the payload
    length, rounded up. *)
Theorem chunk_count_formula (text : string) (tokenizer : Tokenizer)
    (max_length : Z) :
  10 < max_length ->
  exists chunks,
    tokenize_and_chunk text tokenizer max_length = Ok chunks /\
    Py.len chunks
    = (Py.len (encode tokenizer text) + (max_length - 10) - 1)
        / (max_length - 10).
Proof.
  intros HL. eexists. split; [apply tokenize_and_chunk_windows; exact HL|].
  unfold Py.len at 1. rewrite length_map, length_seq.
  pose proof (len_nonneg (encode tokenizer text)) as Hn.
  destruct (range_length_bounds (Py.len (encode tokenizer text))
              (max_length - 10) Hn ltac:(lia)) as (H0 & _ & _).
  rewrite Z2Nat.id by exact H0.
  rewrite range_length_from_zero by lia.
  destruct (0 <? Py.len (encode tokenizer text)) eqn:E.
  - apply Z.ltb_lt in E.
    replace (Py.len (encode tokenizer text) + (max_length - 10) - 1)
      with (Py.len (encode tokenizer text) - 1 + 1 * (max_length - 10)) by lia.
    rewrite Z.div_add by lia. lia.
  - apply Z.ltb_ge in E.
    replace (Py.len (encode tokenizer text)) with 0 by lia.
    rewrite Z.div_small by lia. reflexivity.
Qed.

Lemma chunk_count_formula_witness :
  exists chunks,
    tokenize_and_chunk "" (const_tokenizer [1; 2; 3; 4; 5]) 12 = Ok chunks /\
    Py.len chunks
    = (Py.len (encode (const_tokenizer [1; 2; 3; 4; 5]) "") + (12 - 10) - 1)
        / (12 - 10).
Proof.
  apply (chunk_count_formula "" (const_tokenizer [1; 2; 3; 4; 5]) 12). lia.
Defined.

(** Five tokens and a payload length of two: three chunks, the last one
    short; a [max_length] equal to the margin makes [range] raise. *)
Example tokenize_and_chunk_five_tokens :
  tokenize_and_chunk "" (const_tokenizer [1; 2; 3; 4; 5]) 12
  = Ok [[101; 1; 2; 102]; [101; 3; 4; 102]; [101; 5; 102]].
Proof. reflexivity. Qed.

Example tokenize_and_chunk_zero_step :
  tokenize_and_chunk "" (const_tokenizer [1; 2; 3; 4; 5]) 10 = Raise ValueError.
Proof. reflexivity. Qed.

(** ** More on the chunker *)

(** The chunker's result in natural numbers: [cnt] windows of [a] tokens,
    enough to reach the end of the sequence, each starting inside it. *)
Lemma tokenize_and_chunk_count (text : string) (tokenizer : Tokenizer)
    (max_length : Z) :
  10 < max_length ->
  let a := Z.to_nat (max_length - 10) in
  exists cnt,
    tokenize_and_chunk text tokenizer max_length =
    Ok (map (fun k => [cls_token_id tokenizer]
                        ++ firstn a (skipn (k * a) (encode tokenizer text))
                        ++ [sep_token_id tokenizer])
            (seq 0 cnt)) /\
    (length (encode tokenizer text) <= cnt * a)%nat /\
    (forall k, (k < cnt)%nat -> (k * a < length (encode tokenizer text))%nat).
Proof.
  intros HL a. eexists. split; [apply tokenize_and_chunk_windows; exact HL|].
  destruct (range_length_bounds (Py.len (encode tokenizer text))
              (max_length - 10) (len_nonneg _) ltac:(lia)) as (H0 & Hn & Hk).
  unfold Py.len in *. split.
  - unfold a. nia.
  - intros k Hlt. specialize (Hk (Z.of_nat k) ltac:(lia)). unfold a. nia.
Qed.

(** X2: token [p] of the raw sequence is found in chunk [p / a], one place
    after its offset [p mod a] in the window ([a] the payload length): the
    start marker takes the chunk's first place. *)
Theorem chunk_token_position (text : string) (tokenizer : Tokenizer)
    (max_length : Z) (p : nat) (token : Z) :
  10 < max_length ->
  nth_error (encode tokenizer text) p = Some token ->
  let a := Z.to_nat (max_length - 10) in
  exists chunks chunk,
    tokenize_and_chunk text tokenizer max_length = Ok chunks /\
    nth_error chunks (p / a) = Some chunk /\
    nth_error chunk (S (p mod a)) = Some token.
Proof.
  intros HL Hp a.
  destruct (tokenize_and_chunk_count text tokenizer max_length HL)
    as (cnt & Hrun & Hcover & Hstart).
  fold a in Hrun, Hcover, Hstart.
  assert (Ha : (0 < a)%nat) by (unfold a; lia).
  assert (Hplt : (p < length (encode tokenizer text))%nat).
  { apply nth_error_Some. rewrite Hp. discriminate. }
  assert (Hk : (p / a < cnt)%nat).
  { apply Nat.Div0.div_lt_upper_bound. lia. }
  pose proof (Nat.div_mod_eq p a) as Hdm.
  pose proof (Nat.mod_upper_bound p a ltac:(lia)) as Hmod.
  do 2 eexists. split; [exact Hrun|]. split.
  - rewrite nth_error_map, nth_error_seq.
    apply Nat.ltb_lt in Hk. rewrite Hk. reflexivity.
  - cbn [app nth_error].
    assert (Hwin : nth_error (firstn a (skipn (p / a * a) (encode tokenizer text)))
                             (p mod a) = Some token).
    { rewrite nth_error_firstn.
      apply Nat.ltb_lt in Hmod. rewrite Hmod.
      rewrite nth_error_skipn.
      replace (p / a * a + p mod a)%nat with p by lia. exact Hp. }
    assert (Hlen : (p mod a
                    < length (firstn a (skipn (p / a * a) (encode tokenizer text))))%nat).
    { apply nth_error_Some. rewrite Hwin. discriminate. }
    rewrite nth_error_app1 by exact Hlen. exact Hwin.
Qed.

Lemma chunk_token_position_witness :
  exists chunks chunk,
    tokenize_and_chunk "" (const_tokenizer [1; 2; 3; 4; 5]) 12 = Ok chunks /\
    nth_error chunks (3 / Z.to_nat (12 - 10)) = Some chunk /\
    nth_error chunk (S (3 mod Z.to_nat (12 - 10))) = Some 4.
Proof.
  apply (chunk_token_position "" (const_tokenizer [1; 2; 3; 4; 5]) 12 3 4).
  - lia.
  - reflexivity.
Defined.

(** X3: with [max_length] above the margin every chunk holds at least one
    token between its markers and at most [max_length - 8] token ids in
    all, and every chunk before the last holds exactly [max_length - 8]. *)
Theorem chunk_lengths (text : string) (tokenizer : Tokenizer)
    (max_length : Z) :
  10 < max_length ->
  exists chunks,
    tokenize_and_chunk text tokenizer max_length = Ok chunks /\
    forall k chunk,
      nth_error chunks k = Some chunk ->
      3 <= Py.len chunk <= max_length - 8 /\
      ((S k < length chunks)%nat -> Py.len chunk = max_length - 8).
Proof.
  intros HL.
  destruct (tokenize_and_chunk_count text tokenizer max_length HL)
    as (cnt & Hrun & Hcover & Hstart).
  cbv zeta in Hrun, Hcover, Hstart.
  eexists. split; [exact Hrun|].
  intros k chunk Hk.
  rewrite length_map, length_seq.
  rewrite nth_error_map, nth_error_seq in Hk.
  destruct (Nat.ltb k cnt) eqn:Hlt; [|discriminate Hk].
  apply Nat.ltb_lt in Hlt. cbn [option_map Nat.add] in Hk.
  injection Hk as <-.
  pose proof (Hstart k Hlt) as Hin.
  unfold Py.len. cbn [app length].
  rewrite length_app, length_firstn, length_skipn. cbn [length].
  split; [lia|].
  intros Hnext. pose proof (Hstart (S k) Hnext). lia.
Qed.

Lemma chunk_lengths_witness :
  exists chunks,
    tokenize_and_chunk "" (const_tokenizer [1; 2; 3; 4; 5]) 12 = Ok chunks /\
    forall k chunk,
      nth_error chunks k = Some chunk ->
      3 <= Py.len chunk <= 12 - 8 /\
      ((S k < length chunks)%nat -> Py.len chunk = 12 - 8).
Proof.
  apply (chunk_lengths "" (const_tokenizer [1; 2; 3; 4; 5]) 12). lia.
Defined.

(** X4: with [max_length] at or below the margin nothing is chunked, whatever
    the text: at 10 the step of the range of window starts is zero and
    [range] raises [ValueError]; below 10 the step is negative, the range
    is empty and the chunker returns no chunk. *)
Theorem chunk_max_length_within_margin (text : string)
    (tokenizer : Tokenizer) (max_length : Z) :
  max_length <= 10 ->
  tokenize_and_chunk text tokenizer max_length =
  if max_length =? 10 then Raise ValueError else Ok [].
Proof.
  intros HL. unfold tokenize_and_chunk, Py.range, Py.range_length.
  destruct (max_length =? 10) eqn:E.
  - apply Z.eqb_eq in E. subst. reflexivity.
  - apply Z.eqb_neq in E.
    destruct (max_length - 10 =? 0) eqn:E0; [apply Z.eqb_eq in E0; lia|].
    destruct (0 <? max_length - 10) eqn:E1; [apply Z.ltb_lt in E1; lia|].
    destruct (Py.len (encode tokenizer text) <? 0) eqn:E2.
    { apply Z.ltb_lt in E2. pose proof (len_nonneg (encode tokenizer text)). lia. }
    rewrite andb_false_r. reflexivity.
Qed.

Lemma chunk_max_length_within_margin_witness :
  tokenize_and_chunk "" (const_tokenizer [1; 2; 3; 4; 5]) 8 =
  if 8 =? 10 then Raise ValueError else Ok [].
Proof.
  apply (chunk_max_length_within_margin "" (const_tokenizer [1; 2; 3; 4; 5]) 8).
  lia.
Defined.

(** X5: a row whose two columns parse is always chunked: [combine_text] runs
    the chunker at [MAX_SEQ_LENGTH] on the text built from the two token
    lists, the payloads of its chunks concatenate to the encoding of that
    text, and no chunk has more than 504 token ids. *)
Theorem combine_text_chunks (literal_eval : string -> result (list string))
    (tokenizer : Tokenizer) (row : Row) (title content : list string) :
  literal_eval (Tokenized_Title row) = Ok title ->
  literal_eval (Tokenized_Full_Context row) = Ok content ->
  let combined_text :=
    (("[TITLE] " ++ String.concat " " title)
       ++ (" [CONTENT] " ++ String.concat " " content))%string in
  exists chunks,
    combine_text literal_eval tokenizer row = Ok chunks /\
    concat (map unwrap chunks) = encode tokenizer combined_text /\
    Forall (fun chunk => Py.len chunk <= 504) chunks.
Proof.
  intros Ht Hc combined_text.
  unfold combine_text. rewrite Ht, Hc. cbn [bind]. fold combined_text.
  assert (HL : 10 < MAX_SEQ_LENGTH) by (unfold MAX_SEQ_LENGTH; lia).
  destruct (tokenize_and_chunk_count combined_text tokenizer MAX_SEQ_LENGTH HL)
    as (cnt & Hrun & Hcover & _).
  cbv zeta in Hrun, Hcover.
  eexists. split; [exact Hrun|]. split.
  - rewrite map_map.
    rewrite (map_ext _ (fun k => firstn (Z.to_nat (MAX_SEQ_LENGTH - 10))
                                   (skipn (k * Z.to_nat (MAX_SEQ_LENGTH - 10))
                                          (encode tokenizer combined_text))))
      by (intros k; apply unwrap_wrap).
    apply concat_windows; [unfold MAX_SEQ_LENGTH; lia | exact Hcover].
  - apply Forall_forall. intros chunk Hin.
    apply in_map_iff in Hin. destruct Hin as (k & <- & _).
    unfold Py.len. cbn [app length].
    rewrite length_app, length_firstn. cbn [length].
    unfold MAX_SEQ_LENGTH. lia.
Qed.

Lemma combine_text_chunks_witness :
  exists chunks,
    combine_text (fun _ => Ok ["a"; "b"]%string) (const_tokenizer [1; 2; 3])
                 {| Tokenized_Title := "['a', 'b']";
                    Tokenized_Full_Context := "['a', 'b']";
                    classification_result := "real" |}
    = Ok chunks /\
    concat (map unwrap chunks)
    = encode (const_tokenizer [1; 2; 3])
             (("[TITLE] " ++ String.concat " " ["a"; "b"])
                ++ (" [CONTENT] " ++ String.concat " " ["a"; "b"]))%string /\
    Forall (fun chunk => Py.len chunk <= 504) chunks.
Proof.
  apply (combine_text_chunks (fun _ => Ok ["a"; "b"]%string)
           (const_tokenizer [1; 2; 3])
           {| Tokenized_Title := "['a', 'b']";
              Tokenized_Full_Context := "['a', 'b']";
              classification_result := "real" |}
           ["a"; "b"]%string ["a"; "b"]%string); reflexivity.
Defined.

Lemma In_firstn_skipn {A : Type} (x : A) (n m : nat) (l : list A) :
  In x (firstn n (skipn m l)) -> In x l.
Proof.
  intros H.
  rewrite <- (firstn_skipn m l). apply in_or_app. right.
  rewrite <- (firstn_skipn n (skipn m l)). apply in_or_app. left. exact H.
Qed.

(** C8: the tokenizer is called with [add_special_tokens=True], so the
    raw sequence of every text, also of a text without any word piece,
    holds at least the tokenizer's two markers.  With a positive payload
    length [max_length - 10] the chunker therefore yields at least one
    chunk for every text; a raw sequence no longer than the payload length
    yields exactly one chunk, the whole sequence between the start and the
    end marker; and for a text without any word piece every chunk holds
    markers only. *)
Theorem chunk_count (text : string) (tokenizer : Tokenizer)
    (word_piece_ids : string -> list Z) (max_length : Z) :
  adds_special_tokens tokenizer word_piece_ids ->
  0 < max_length - 10 ->
  exists c rest,
    tokenize_and_chunk text tokenizer max_length = Ok (c :: rest) /\
    (Py.len (encode tokenizer text) <= max_length - 10 ->
     c = [cls_token_id tokenizer] ++ encode tokenizer text
           ++ [sep_token_id tokenizer] /\
     rest = []) /\
    (word_piece_ids text = [] ->
     Forall (Forall (is_marker tokenizer)) (c :: rest)).
Proof.
  intros Hspecial Hpayload.
  destruct (tokenize_and_chunk_count text tokenizer max_length ltac:(lia))
    as (cnt & Hrun & Hcover & Hstart).
  cbv zeta in Hrun, Hcover, Hstart.
  set (a := Z.to_nat (max_length - 10)) in *.
  assert (Hlen : (2 <= length (encode tokenizer text))%nat).
  { rewrite (Hspecial text). cbn [app length]. rewrite length_app.
    cbn [length]. lia. }
  destruct cnt as [|cnt]; [cbn in Hcover; lia|].
  cbn [seq map] in Hrun. do 2 eexists. split; [exact Hrun|]. split.
  - intros Hshort.
    assert (Hone : cnt = 0%nat).
    { destruct cnt as [|cnt]; [reflexivity|].
      pose proof (Hstart 1%nat ltac:(lia)). unfold Py.len in Hshort. lia. }
    subst cnt. cbn [seq map Nat.mul skipn]. split; [|reflexivity].
    rewrite firstn_all2 by (unfold Py.len in Hshort; lia). reflexivity.
  - intros Hempty.
    assert (Hraw : Forall (is_marker tokenizer) (encode tokenizer text)).
    { rewrite (Hspecial text), Hempty. cbn [app].
      constructor; [left; reflexivity|].
      constructor; [right; reflexivity|]. constructor. }
    assert (Hwrap : forall k,
               Forall (is_marker tokenizer)
                      ([cls_token_id tokenizer]
                         ++ firstn a (skipn (k * a) (encode tokenizer text))
                         ++ [sep_token_id tokenizer])).
    { intros k. apply Forall_app.
      split; [constructor; [left; reflexivity | constructor]|].
      apply Forall_app.
      split; [|constructor; [right; reflexivity | constructor]].
      apply Forall_forall. intros x Hx. rewrite Forall_forall in Hraw.
      apply Hraw. eapply In_firstn_skipn. exact Hx. }
    constructor; [apply Hwrap|].
    apply Forall_forall. intros chunk Hin.
    apply in_map_iff in Hin. destruct Hin as (k & <- & _). apply Hwrap.
Qed.

Lemma chunk_count_witness :
  exists c rest,
    tokenize_and_chunk "" (marking_tokenizer no_word_piece) MAX_SEQ_LENGTH
    = Ok (c :: rest) /\
    (Py.len (encode (marking_tokenizer no_word_piece) "")
     <= MAX_SEQ_LENGTH - 10 ->
     c = [cls_token_id (marking_tokenizer no_word_piece)]
           ++ encode (marking_tokenizer no_word_piece) ""
           ++ [sep_token_id (marking_tokenizer no_word_piece)] /\
     rest = []) /\
    (no_word_piece EmptyString = [] ->
     Forall (Forall (is_marker (marking_tokenizer no_word_piece))) (c :: rest)).
Proof.
  apply (chunk_count "" (marking_tokenizer no_word_piece) no_word_piece
           MAX_SEQ_LENGTH).
  - intros text. reflexivity.
  - unfold MAX_SEQ_LENGTH. lia.
Defined.

(** A text without any word piece, at the script's [MAX_SEQ_LENGTH]: one
    chunk, the tokenizer's two markers between the chunker's two. *)
Example tokenize_and_chunk_no_word_piece :
  tokenize_and_chunk "" (marking_tokenizer no_word_piece) MAX_SEQ_LENGTH
  = Ok [[101; 101; 102; 102]].
Proof. reflexivity. Qed.

(** ** Flattener *)

Section ConcatFacts.

Context {A : Type}.

(** Element [j] of the [d]-th list sits in the concatenation at the total
    length of the lists before it, plus [j]. *)
Lemma nth_error_concat_offset (ls : list (list A)) :
  forall d l j x,
    nth_error ls d = Some l -> nth_error l j = Some x ->
    nth_error (concat ls) (length (concat (firstn d ls)) + j) = Some x.
Proof.
  induction ls as [|a ls IH]; intros d l j x Hd Hj.
  - destruct d; discriminate Hd.
  - destruct d as [|d]; cbn [firstn concat nth_error] in *.
    + injection Hd as ->. cbn [length Nat.add].
      rewrite nth_error_app1; [exact Hj|].
      apply nth_error_Some. congruence.
    + rewrite length_app, <- Nat.add_assoc.
      rewrite nth_error_app2 by lia.
      replace (length a + (length (concat (firstn d ls)) + j) - length a)%nat
        with (length (concat (firstn d ls)) + j)%nat by lia.
      eapply IH; eassumption.
Qed.

(** Every position of the concatenation is such a position. *)
Lemma concat_position (ls : list (list A)) :
  forall i, (i < length (concat ls))%nat ->
    exists d l j,
      nth_error ls d = Some l /\ (j < length l)%nat /\
      i = (length (concat (firstn d ls)) + j)%nat.
Proof.
  induction ls as [|a ls IH]; intros i Hi; cbn [concat] in Hi.
  - cbn in Hi. lia.
  - rewrite length_app in Hi.
    destruct (Nat.lt_ge_cases i (length a)) as [Hlt | Hge].
    + exists 0%nat, a, i. repeat split; trivial.
    + destruct (IH (i - length a)%nat ltac:(lia)) as (d & l & j & Hd & Hj & Hi').
      exists (S d), l, j. repeat split; trivial.
      cbn [firstn concat]. rewrite length_app. lia.
Qed.

Lemma sum_from (xs : list Z) (a : Z) : fold_left Z.add xs a = a + Py.sum xs.
Proof.
  unfold Py.sum. revert a. induction xs as [|x xs IH]; intros a; cbn [fold_left].
  - lia.
  - rewrite (IH (a + x)), (IH (0 + x)). lia.
Qed.

Lemma sum_cons (x : Z) (xs : list Z) : Py.sum (x :: xs) = x + Py.sum xs.
Proof. unfold Py.sum at 1. cbn [fold_left]. rewrite sum_from. lia. Qed.

Lemma sum_len_concat (ls : list (list A)) :
  Py.sum (map (@Py.len A) ls) = Py.len (concat ls).
Proof.
  induction ls as [|a ls IH]; [reflexivity|].
  cbn [map concat]. rewrite sum_cons, len_app, IH. reflexivity.
Qed.

End ConcatFacts.

Section FlattenerFacts.

Variables (chunk label : Type).

Lemma flatten_text_app (text : list chunk) (lbl : label) :
  forall acc,
    flatten_text acc (text, lbl) =
    (fst acc ++ text, snd acc ++ repeat lbl (length text)).
Proof.
  unfold flatten_text.
  induction text as [|c text IH]; intros [ts ls]; cbn [fold_left fst snd].
  - rewrite !app_nil_r. reflexivity.
  - rewrite IH. cbn [fst snd length repeat].
    rewrite <- !app_assoc. reflexivity.
Qed.

Lemma flatten_fold (items : list (list chunk * label)) :
  forall acc,
    fold_left (@flatten_text chunk label) items acc =
    (fst acc ++ concat (map fst items), snd acc ++ concat (map (@spread chunk label) items)).
Proof.
  induction items as [|[text lbl] items IH]; intros [ts ls]; cbn [fold_left].
  - cbn. rewrite !app_nil_r. reflexivity.
  - rewrite flatten_text_app, IH. cbn [fst snd map concat].
    unfold spread at 2. cbn [fst snd]. rewrite <- !app_assoc. reflexivity.
Qed.

Lemma spread_length (items : list (list chunk * label)) :
  length (concat (map (@spread chunk label) items)) = length (concat (map fst items)).
Proof.
  induction items as [|[text lbl] items IH]; [reflexivity|].
  cbn [map concat]. rewrite !length_app, IH. unfold spread.
  cbn [fst snd]. rewrite repeat_length. reflexivity.
Qed.

(** The flattener never raises: the assertion compares two lists that grew
    in lock step. *)
Lemma flatten_chunks_zip (texts : list (list chunk)) (labels : list label) :
  flatten_chunks texts labels =
  Ok (concat (map fst (Py.zip texts labels)),
      concat (map (@spread chunk label) (Py.zip texts labels))).
Proof.
  unfold flatten_chunks. rewrite flatten_fold. cbn [fst snd app].
  unfold Py.len. rewrite spread_length, Z.eqb_refl. reflexivity.
Qed.

Lemma zip_fst (texts : list (list chunk)) (labels : list label) :
  length texts = length labels -> map fst (Py.zip texts labels) = texts.
Proof.
  unfold Py.zip. revert labels.
  induction texts as [|t texts IH]; intros [|l labels] H;
    try discriminate H; [reflexivity|].
  cbn [combine map fst]. f_equal. apply IH. injection H. trivial.
Qed.

Lemma zip_nth_error (texts : list (list chunk)) (labels : list label) :
  forall d text lbl,
    nth_error texts d = Some text -> nth_error labels d = Some lbl ->
    nth_error (Py.zip texts labels) d = Some (text, lbl).
Proof.
  unfold Py.zip. revert labels.
  induction texts as [|t texts IH]; intros [|l labels] [|d] text lbl Ht Hl;
    try discriminate; cbn [combine nth_error] in *.
  - congruence.
  - apply IH; assumption.
Qed.

(** C2: on inputs of equal length the flattener returns two lists of one
    common length, the sum of the chunk-set lengths; the chunks are the
    chunk sets concatenated in input order; chunk [j] of document [d]
    stands at position [chunk_offset texts d + j] and the label at that
    position is document [d]'s; and every output position is of that form. *)
Theorem flatten_alignment (texts : list (list chunk)) (labels : list label) :
  length texts = length labels ->
  exists all_texts all_labels,
    flatten_chunks texts labels = Ok (all_texts, all_labels) /\
    Py.len all_texts = Py.len all_labels /\
    Py.len all_texts = Py.sum (map (@Py.len chunk) texts) /\
    all_texts = concat texts /\
    (forall d text lbl j c,
        nth_error texts d = Some text ->
        nth_error labels d = Some lbl ->
        nth_error text j = Some c ->
        nth_error all_texts (chunk_offset texts d + j) = Some c /\
        nth_error all_labels (chunk_offset texts d + j) = Some lbl) /\
    (forall i, (i < length all_texts)%nat ->
        exists d text j,
          nth_error texts d = Some text /\ (j < length text)%nat /\
          i = (chunk_offset texts d + j)%nat).
Proof.
  intros Hlen. do 2 eexists. split; [apply flatten_chunks_zip|].
  rewrite (zip_fst texts labels Hlen).
  split; [|split; [|split; [|split]]].
  - unfold Py.len. rewrite spread_length, (zip_fst texts labels Hlen).
    reflexivity.
  - symmetry. apply sum_len_concat.
  - reflexivity.
  - intros d text lbl j c Ht Hl Hc. unfold chunk_offset. split.
    + eapply nth_error_concat_offset; eassumption.
    + pose proof (zip_nth_error texts labels d text lbl Ht Hl) as Hz.
      assert (Hoff : length (concat (firstn d texts)) =
                     length (concat (firstn d (map (@spread chunk label) (Py.zip texts labels))))).
      { rewrite firstn_map, spread_length, <- firstn_map.
        rewrite (zip_fst texts labels Hlen). reflexivity. }
      rewrite Hoff.
      apply nth_error_concat_offset with (l := spread (text, lbl)).
      * rewrite nth_error_map, Hz. reflexivity.
      * unfold spread. cbn [fst snd].
        apply nth_error_repeat. apply nth_error_Some. congruence.
  - intros i Hi. unfold chunk_offset. apply concat_position. exact Hi.
Qed.

(** C5 (as amended): the flattener makes no length check.  On any two
    inputs it returns, with the result it gives on their common prefix of
    [min (length texts) (length labels)] entries: the surplus of the longer
    input is ignored. *)
Theorem flatten_truncates (texts : list (list chunk)) (labels : list label) :
  let n := Nat.min (length texts) (length labels) in
  exists all_texts all_labels,
    flatten_chunks texts labels = Ok (all_texts, all_labels) /\
    flatten_chunks (firstn n texts) (firstn n labels)
      = Ok (all_texts, all_labels) /\
    all_texts = concat (firstn n texts) /\
    Py.len all_texts = Py.len all_labels.
Proof.
  intros n.
  assert (Hzip : Py.zip (firstn n texts) (firstn n labels) = Py.zip texts labels).
  { unfold Py.zip. rewrite <- combine_firstn. apply firstn_all2.
    rewrite length_combine. reflexivity. }
  do 2 eexists. split; [apply flatten_chunks_zip|].
  split; [|split].
  - rewrite flatten_chunks_zip, Hzip. reflexivity.
  - rewrite <- Hzip. rewrite zip_fst; [reflexivity|].
    rewrite !length_firstn. lia.
  - unfold Py.len. rewrite spread_length. reflexivity.
Qed.

End FlattenerFacts.

Lemma flatten_alignment_witness :
  exists all_texts all_labels,
    flatten_chunks ex_texts ex_labels = Ok (all_texts, all_labels) /\
    Py.len all_texts = Py.len all_labels /\
    Py.len all_texts = Py.sum (map (@Py.len Z) ex_texts) /\
    all_texts = concat ex_texts /\
    (forall d text lbl j c,
        nth_error ex_texts d = Some text ->
        nth_error ex_labels d = Some lbl ->
        nth_error text j = Some c ->
        nth_error all_texts (chunk_offset ex_texts d + j) = Some c /\
        nth_error all_labels (chunk_offset ex_texts d + j) = Some lbl) /\
    (forall i, (i < length all_texts)%nat ->
        exists d text j,
          nth_error ex_texts d = Some text /\ (j < length text)%nat /\
          i = (chunk_offset ex_texts d + j)%nat).
Proof.
  apply (flatten_alignment Z Z ex_texts ex_labels). reflexivity.
Defined.

(** C5 (as stated) fails: with two chunk sets and one label the flattener
    returns the first chunk set's chunks with that label; nothing is raised. *)
Lemma flatten_length_mismatch_returns :
  flatten_chunks [[1]; [2; 3]] [7] = Ok ([1], [7]) /\
  ~ (forall (texts : list (list Z)) (labels : list Z),
       length texts <> length labels ->
       exists e, flatten_chunks texts labels = Raise e).
Proof.
  split; [reflexivity|].
  intros H. destruct (H [[1]; [2; 3]] [7]) as (e & He).
  - cbn. lia.
  - discriminate He.
Qed.

(** ** Aggregator *)

Section AggregatorFacts.

Variables (chunk num : Type).
Variable np_mean : list num -> num.

Lemma aggregate_fold (predictions : list num) (text_chunks : list (list chunk)) :
  forall aggregated idx,
    fold_left (aggregate_step np_mean predictions) text_chunks (aggregated, idx) =
    (aggregated ++ slice_means np_mean text_chunks predictions idx,
     idx + Py.sum (map (@Py.len chunk) text_chunks)).
Proof.
  induction text_chunks as [|chunks rest IH]; intros aggregated idx.
  - cbn. rewrite app_nil_r. f_equal. lia.
  - cbn [fold_left aggregate_step]. rewrite IH.
    cbn [slice_means map]. rewrite sum_cons, <- app_assoc.
    f_equal. lia.
Qed.

(** The loop computes the means of consecutive slices. *)
Lemma aggregate_predictions_slice_means (text_chunks : list (list chunk))
    (predictions : list num) :
  aggregate_predictions np_mean text_chunks predictions =
  slice_means np_mean text_chunks predictions 0.
Proof. unfold aggregate_predictions. rewrite aggregate_fold. reflexivity. Qed.

Lemma slice_means_length (predictions : list num)
    (text_chunks : list (list chunk)) :
  forall start,
    length (slice_means np_mean text_chunks predictions start)
    = length text_chunks.
Proof.
  induction text_chunks as [|chunks rest IH]; intros start; cbn [slice_means length].
  - reflexivity.
  - rewrite IH. reflexivity.
Qed.

Lemma slice_start_succ (chunks : list chunk) (rest : list (list chunk)) (d : nat) :
  slice_start (chunks :: rest) (S d) = Py.len chunks + slice_start rest d.
Proof. unfold slice_start. cbn [firstn map]. apply sum_cons. Qed.

Lemma slice_means_nth (predictions : list num)
    (text_chunks : list (list chunk)) :
  forall start d chunks,
    nth_error text_chunks d = Some chunks ->
    nth_error (slice_means np_mean text_chunks predictions start) d =
    Some (np_mean (Py.slice predictions
                            (start + slice_start text_chunks d)
                            (start + slice_start text_chunks d + Py.len chunks))).
Proof.
  induction text_chunks as [|c rest IH]; intros start d chunks Hd.
  - destruct d; discriminate Hd.
  - destruct d as [|d]; cbn [nth_error slice_means] in *.
    + injection Hd as ->. unfold slice_start. cbn [firstn map].
      change (Py.sum []) with 0. rewrite Z.add_0_r. reflexivity.
    + rewrite (IH _ _ _ Hd), slice_start_succ.
      do 3 f_equal; lia.
Qed.

(** What the loop does on any input, checked or not. *)
Lemma aggregate_predictions_nth (text_chunks : list (list chunk))
    (predictions : list num) :
  length (aggregate_predictions np_mean text_chunks predictions)
  = length text_chunks /\
  forall d chunks,
    nth_error text_chunks d = Some chunks ->
    nth_error (aggregate_predictions np_mean text_chunks predictions) d =
    Some (np_mean (Py.slice predictions
                            (slice_start text_chunks d)
                            (slice_start text_chunks d + Py.len chunks))).
Proof.
  rewrite aggregate_predictions_slice_means. split.
  - apply slice_means_length.
  - intros d chunks Hd. rewrite (slice_means_nth _ _ 0 d chunks Hd).
    reflexivity.
Qed.

(** A document's slice lies inside the first [sum] predictions. *)
Lemma slice_start_bounds (text_chunks : list (list chunk)) :
  forall d chunks,
    nth_error text_chunks d = Some chunks ->
    0 <= slice_start text_chunks d /\
    slice_start text_chunks d + Py.len chunks
    <= Py.sum (map (@Py.len chunk) text_chunks).
Proof.
  induction text_chunks as [|c rest IH]; intros d chunks Hd.
  - destruct d; discriminate Hd.
  - rewrite map_cons, sum_cons. destruct d as [|d]; cbn [nth_error] in Hd.
    + injection Hd as ->. unfold slice_start. cbn [firstn map].
      change (Py.sum []) with 0.
      rewrite sum_len_concat. pose proof (len_nonneg (concat rest)). lia.
    + rewrite slice_start_succ. destruct (IH _ _ Hd) as [H0 H1].
      pose proof (len_nonneg c). lia.
Qed.

End AggregatorFacts.

Section AggregateInstances.

Import PrimFloat.

(* Decimal literals stand for the nearest binary64 values, as in Python. *)
#[local] Set Warnings "-inexact-float".

(** C9 (as amended): when the chunk counts add up to the number of
    predictions, the aggregator returns one value per document, in document
    order; value [d] is [np.mean] of a slice of exactly [len(chunks_d)]
    predictions that starts at the sum of the counts of the documents
    before [d].  With counts 2 and 3 and five predictions it returns the
    mean of the first two and the mean of the last three; on the binary64
    predictions 0.1, 0.9, 0.2, 0.4, 0.6 these are 0.5 and
    0.4000000000000001. *)
Theorem aggregate_correct :
  (forall (chunk num : Type) (np_mean : list num -> num)
          (text_chunks : list (list chunk)) (predictions : list num),
      Py.sum (map (@Py.len chunk) text_chunks) = Py.len predictions ->
      Py.len (aggregate_predictions np_mean text_chunks predictions)
      = Py.len text_chunks /\
      forall d chunks,
        nth_error text_chunks d = Some chunks ->
        let window := firstn (length chunks)
                        (skipn (Z.to_nat (slice_start text_chunks d)) predictions) in
        nth_error (aggregate_predictions np_mean text_chunks predictions) d
        = Some (np_mean window) /\
        Py.len window = Py.len chunks) /\
  (forall (num : Type) (np_mean : list num -> num) (p1 p2 p3 p4 p5 : num),
      aggregate_predictions np_mean ex_counts_2_3 [p1; p2; p3; p4; p5]
      = [np_mean [p1; p2]; np_mean [p3; p4; p5]]) /\
  aggregate_predictions Float64.mean ex_counts_2_3
                        [0.1; 0.9; 0.2; 0.4; 0.6]%float
  = [0.5; 0.4000000000000001]%float.
Proof.
  split; [|split; [reflexivity | reflexivity]].
  intros chunk num np_mean text_chunks predictions Hsum.
  destruct (aggregate_predictions_nth chunk num np_mean text_chunks predictions)
    as [Hlen Hnth].
  split; [unfold Py.len; congruence|].
  intros d chunks Hd window.
  destruct (slice_start_bounds chunk text_chunks d chunks Hd) as [H0 H1].
  rewrite (Hnth d chunks Hd).
  pose proof (len_nonneg chunks) as Hc.
  rewrite slice_firstn_skipn by lia.
  unfold Py.len at 1. rewrite Nat2Z.id. split; [reflexivity|].
  unfold window, Py.len in *. rewrite length_firstn, length_skipn. lia.
Qed.

Lemma aggregate_correct_witness :
  Py.sum (map (@Py.len Z) ex_counts_2_3) = Py.len ex_predictions_5 /\
  Py.len (aggregate_predictions rmean ex_counts_2_3 ex_predictions_5)
  = Py.len ex_counts_2_3 /\
  forall d chunks,
    nth_error ex_counts_2_3 d = Some chunks ->
    let window := firstn (length chunks)
                    (skipn (Z.to_nat (slice_start ex_counts_2_3 d))
                           ex_predictions_5) in
    nth_error (aggregate_predictions rmean ex_counts_2_3 ex_predictions_5) d
    = Some (rmean window) /\
    Py.len window = Py.len chunks.
Proof.
  split; [reflexivity|].
  apply (proj1 aggregate_correct Z rnum rmean ex_counts_2_3 ex_predictions_5).
  reflexivity.
Defined.

(** C9 (as stated) fails in its instance: on counts 2 and 3 and the
    binary64 predictions 0.1, 0.9, 0.2, 0.4, 0.6 the second value is
    [(0.2 + 0.4 + 0.6) / 3] as binary64 arithmetic rounds it,
    0.4000000000000001, which is not the binary64 value 0.4. *)
Lemma aggregate_float_instance_rounds :
  aggregate_predictions Float64.mean ex_counts_2_3
                        [0.1; 0.9; 0.2; 0.4; 0.6]%float
  = [0.5; 0.4000000000000001]%float /\
  aggregate_predictions Float64.mean ex_counts_2_3
                        [0.1; 0.9; 0.2; 0.4; 0.6]%float
  <> [0.5; 0.4]%float.
Proof.
  split; [reflexivity|].
  intros H.
  apply (f_equal (fun means => match means with
                               | [_; m] => eqb m 0.4%float
                               | _ => true
                               end)) in H.
  vm_compute in H. discriminate H.
Qed.

(** C7 (as amended): the aggregator makes no shape check.  On every input
    it returns one value per document; value [d] is [np.mean] of the slice
    [predictions[s : s + len(chunks_d)]] as Python cuts it at the end of
    the predictions, [s] being the sum of the counts of the documents
    before [d].  With counts 2 and 2 and three predictions it returns the
    mean of the first two predictions and the mean of the third alone. *)
Theorem aggregate_unchecked :
  (forall (chunk num : Type) (np_mean : list num -> num)
          (text_chunks : list (list chunk)) (predictions : list num),
      Py.len (aggregate_predictions np_mean text_chunks predictions)
      = Py.len text_chunks /\
      forall d chunks,
        nth_error text_chunks d = Some chunks ->
        nth_error (aggregate_predictions np_mean text_chunks predictions) d
        = Some (np_mean (Py.slice predictions
                                  (slice_start text_chunks d)
                                  (slice_start text_chunks d + Py.len chunks)))) /\
  (forall (num : Type) (np_mean : list num -> num) (p1 p2 p3 : num),
      aggregate_predictions np_mean ex_counts_2_2 [p1; p2; p3]
      = [np_mean [p1; p2]; np_mean [p3]]).
Proof.
  split; [|reflexivity].
  intros chunk num np_mean text_chunks predictions.
  destruct (aggregate_predictions_nth chunk num np_mean text_chunks predictions)
    as [Hlen Hnth].
  split; [unfold Py.len; congruence | exact Hnth].
Qed.

(** C7 (as stated) fails: counts 2 and 2 add up to 4, and against any
    three predictions, whatever the numbers and the mean, the aggregator
    returns two values, the second the mean of the one prediction that is
    left; nothing is raised.  On the binary64 predictions 0.1, 0.2, 0.3 the
    two values are 0.15000000000000002 and 0.3. *)
Lemma aggregate_shape_mismatch_returns :
  Py.sum (map (@Py.len Z) ex_counts_2_2) = 4 /\
  (forall (num : Type) (np_mean : list num -> num) (p1 p2 p3 : num),
      Py.len [p1; p2; p3] = 3 /\
      aggregate_predictions np_mean ex_counts_2_2 [p1; p2; p3]
      = [np_mean [p1; p2]; np_mean [p3]]) /\
  aggregate_predictions Float64.mean ex_counts_2_2 [0.1; 0.2; 0.3]%float
  = [0.15000000000000002; 0.3]%float.
Proof.
  split; [reflexivity|]. split; [|reflexivity]. intros. split; reflexivity.
Qed.

End AggregateInstances.

(** ** More on the flattener and the aggregator *)

Section SliceFacts.

Context {A : Type}.

(** A slice that ends inside a list is not changed by what follows the list. *)
Lemma slice_app_l (l extra : list A) (i c : Z) :
  0 <= i -> 0 <= c -> i + c <= Py.len l ->
  Py.slice (l ++ extra) i (i + c) = Py.slice l i (i + c).
Proof.
  intros Hi Hc Hle.
  pose proof (len_nonneg extra) as He.
  rewrite !slice_firstn_skipn by (rewrite ?len_app; lia).
  rewrite skipn_app, firstn_app.
  assert (Hlen : length (skipn (Z.to_nat i) l) = Z.to_nat (Py.len l - i)).
  { rewrite length_skipn. unfold Py.len. lia. }
  replace (Z.to_nat c - length (skipn (Z.to_nat i) l))%nat with 0%nat
    by (rewrite Hlen; lia).
  cbn [firstn]. apply app_nil_r.
Qed.

(** A slice of an appended list that starts at or after the joint is the
    slice of the second list, counted from the joint. *)
Lemma slice_app_r (l1 l2 : list A) (i c : Z) :
  0 <= i -> 0 <= c ->
  Py.slice (l1 ++ l2) (Py.len l1 + i) (Py.len l1 + i + c) = Py.slice l2 i (i + c).
Proof.
  intros Hi Hc. unfold Py.slice, Py.adjust_index.
  pose proof (len_nonneg l1) as H1. pose proof (len_nonneg l2) as H2.
  rewrite len_app.
  destruct (Py.len l1 + i <? 0) eqn:E1; [apply Z.ltb_lt in E1; lia|].
  destruct (Py.len l1 + i + c <? 0) eqn:E2; [apply Z.ltb_lt in E2; lia|].
  destruct (i <? 0) eqn:E3; [apply Z.ltb_lt in E3; lia|].
  destruct (i + c <? 0) eqn:E4; [apply Z.ltb_lt in E4; lia|].
  replace (Z.min (Py.len l1 + i) (Py.len l1 + Py.len l2))
    with (Py.len l1 + Z.min i (Py.len l2)) by lia.
  replace (Z.min (Py.len l1 + i + c) (Py.len l1 + Py.len l2))
    with (Py.len l1 + Z.min (i + c) (Py.len l2)) by lia.
  replace (Py.len l1 + Z.min (i + c) (Py.len l2)
           - (Py.len l1 + Z.min i (Py.len l2)))
    with (Z.min (i + c) (Py.len l2) - Z.min i (Py.len l2)) by lia.
  f_equal.
  replace (Z.to_nat (Py.len l1 + Z.min i (Py.len l2)))
    with (Z.to_nat (Z.min i (Py.len l2)) + length l1)%nat
    by (unfold Py.len; lia).
  rewrite <- skipn_skipn.
  rewrite skipn_app, skipn_all, Nat.sub_diag. reflexivity.
Qed.

(** A slice that starts at or after the end of a list is empty. *)
Lemma slice_past_end (l : list A) (i c : Z) :
  Py.len l <= i -> 0 <= c -> Py.slice l i (i + c) = [].
Proof.
  intros Hi Hc. unfold Py.slice, Py.adjust_index.
  pose proof (len_nonneg l) as Hl.
  destruct (i <? 0) eqn:E1; [apply Z.ltb_lt in E1; lia|].
  destruct (i + c <? 0) eqn:E2; [apply Z.ltb_lt in E2; lia|].
  rewrite !Z.min_r by lia. rewrite Z.sub_diag. reflexivity.
Qed.

End SliceFacts.

Section AlignmentFacts.

Variables (chunk num : Type).
Variable np_mean : list num -> num.

(** Means of slices that all end inside the predictions do not depend on
    what follows the predictions. *)
Lemma slice_means_app_l (predictions extra : list num)
    (text_chunks : list (list chunk)) :
  forall start,
    0 <= start ->
    start + Py.sum (map (@Py.len chunk) text_chunks) <= Py.len predictions ->
    slice_means np_mean text_chunks (predictions ++ extra) start
    = slice_means np_mean text_chunks predictions start.
Proof.
  induction text_chunks as [|chunks rest IH]; intros start H0 Hle;
    cbn [slice_means]; [reflexivity|].
  rewrite map_cons, sum_cons in Hle.
  pose proof (len_nonneg chunks) as Hc.
  assert (Hrest : 0 <= Py.sum (map (@Py.len chunk) rest)).
  { rewrite sum_len_concat. apply len_nonneg. }
  rewrite slice_app_l by lia. rewrite IH by lia. reflexivity.
Qed.

(** Means of slices taken from the joint of two prediction lists on are
    the means of the slices of the second list. *)
Lemma slice_means_app_r (before predictions : list num)
    (text_chunks : list (list chunk)) :
  forall start,
    0 <= start ->
    slice_means np_mean text_chunks (before ++ predictions)
                (Py.len before + start)
    = slice_means np_mean text_chunks predictions start.
Proof.
  induction text_chunks as [|chunks rest IH]; intros start H0;
    cbn [slice_means]; [reflexivity|].
  pose proof (len_nonneg chunks) as Hc.
  rewrite slice_app_r by lia.
  rewrite <- Z.add_assoc, IH by lia. reflexivity.
Qed.

(** X8: predictions beyond the sum of the chunk counts are never read: the
    aggregate is that of the predictions without the surplus. *)
Theorem aggregate_ignores_surplus (text_chunks : list (list chunk))
    (predictions extra : list num) :
  Py.sum (map (@Py.len chunk) text_chunks) = Py.len predictions ->
  aggregate_predictions np_mean text_chunks (predictions ++ extra)
  = aggregate_predictions np_mean text_chunks predictions.
Proof.
  intros Hsum. rewrite !aggregate_predictions_slice_means.
  apply slice_means_app_l; lia.
Qed.

(** X9: a document whose slice would start at or after the end of the
    predictions gets the mean of the empty slice (numpy's [nan]); no
    exception is raised. *)
Theorem aggregate_missing_predictions (text_chunks : list (list chunk))
    (predictions : list num) (d : nat) (chunks : list chunk) :
  nth_error text_chunks d = Some chunks ->
  Py.len predictions <= slice_start text_chunks d ->
  nth_error (aggregate_predictions np_mean text_chunks predictions) d
  = Some (np_mean []).
Proof.
  intros Hd Hshort.
  destruct (aggregate_predictions_nth chunk num np_mean text_chunks predictions)
    as [_ Hnth].
  rewrite (Hnth d chunks Hd).
  rewrite slice_past_end by (try apply len_nonneg; exact Hshort).
  reflexivity.
Qed.

(** X10: aggregating two sets of documents at once, with their predictions put
    end to end, gives the two aggregates put end to end, provided the first
    set's chunk counts add up to the number of its predictions. *)
Theorem aggregate_app (text_chunks1 text_chunks2 : list (list chunk))
    (predictions1 predictions2 : list num) :
  Py.sum (map (@Py.len chunk) text_chunks1) = Py.len predictions1 ->
  aggregate_predictions np_mean (text_chunks1 ++ text_chunks2)
                        (predictions1 ++ predictions2)
  = aggregate_predictions np_mean text_chunks1 predictions1
      ++ aggregate_predictions np_mean text_chunks2 predictions2.
Proof.
  intros Hsum. unfold aggregate_predictions.
  rewrite fold_left_app, !aggregate_fold. cbn [app fst].
  rewrite Z.add_0_l, Hsum.
  rewrite slice_means_app_l by lia.
  rewrite <- (Z.add_0_r (Py.len predictions1)).
  rewrite slice_means_app_r by lia. reflexivity.
Qed.

Variable label : Type.

(** X7: the flattener and the aggregator agree on the order of the chunks:
    when every chunk of the flattened output gets its prediction, in
    output order, the aggregate of document [d] is the mean of the
    predictions of document [d]'s own chunks. *)
Theorem flatten_then_aggregate (predict : chunk -> num)
    (texts : list (list chunk)) (labels : list label) :
  length texts = length labels ->
  exists all_texts all_labels,
    flatten_chunks texts labels = Ok (all_texts, all_labels) /\
    aggregate_predictions np_mean texts (map predict all_texts)
    = map (fun text => np_mean (map predict text)) texts.
Proof.
  intros Hlen. do 2 eexists. split; [apply flatten_chunks_zip|].
  rewrite (zip_fst chunk label texts labels Hlen).
  rewrite aggregate_predictions_slice_means. clear Hlen.
  assert (Hgen : forall before,
             slice_means np_mean texts
                         (before ++ map predict (concat texts))
                         (Py.len before)
             = map (fun text => np_mean (map predict text)) texts).
  { induction texts as [|text rest IH]; intros before;
      cbn [slice_means map concat]; [reflexivity|].
    f_equal.
    - f_equal. rewrite map_app.
      rewrite <- (Z.add_0_r (Py.len before)).
      rewrite slice_app_r by (try apply len_nonneg; lia).
      replace (Py.len text) with (Py.len (map predict text))
        by (unfold Py.len; rewrite length_map; reflexivity).
      rewrite (slice_app_l (map predict text) (map predict (concat rest)) 0)
        by (try apply len_nonneg; lia).
      rewrite slice_firstn_skipn by (pose proof (len_nonneg (map predict text)); lia).
      cbn [Z.to_nat skipn]. apply firstn_all2. unfold Py.len. lia.
    - rewrite map_app, app_assoc.
      replace (Py.len before + Py.len text)
        with (Py.len (before ++ map predict text))
        by (rewrite len_app; unfold Py.len; rewrite length_map; reflexivity).
      apply IH. }
  apply (Hgen []).
Qed.

End AlignmentFacts.

Lemma zip_app {A B : Type} (xs xs' : list A) (ys ys' : list B) :
  length xs = length ys ->
  Py.zip (xs ++ xs') (ys ++ ys') = Py.zip xs ys ++ Py.zip xs' ys'.
Proof.
  unfold Py.zip. revert ys.
  induction xs as [|x xs IH]; intros [|y ys] H; try discriminate H.
  - reflexivity.
  - cbn [app combine]. f_equal. apply IH. injection H. trivial.
Qed.

(** X6: flattening two document sets put end to end gives the two flattened
    outputs put end to end, provided the first set has one label per
    document. *)
Theorem flatten_app {chunk label : Type}
    (texts1 texts2 : list (list chunk)) (labels1 labels2 : list label) :
  length texts1 = length labels1 ->
  exists chunks1 chunk_labels1 chunks2 chunk_labels2,
    flatten_chunks texts1 labels1 = Ok (chunks1, chunk_labels1) /\
    flatten_chunks texts2 labels2 = Ok (chunks2, chunk_labels2) /\
    flatten_chunks (texts1 ++ texts2) (labels1 ++ labels2)
    = Ok (chunks1 ++ chunks2, chunk_labels1 ++ chunk_labels2).
Proof.
  intros Hlen. do 4 eexists.
  split; [apply flatten_chunks_zip|]. split; [apply flatten_chunks_zip|].
  rewrite flatten_chunks_zip, (zip_app _ _ _ _ Hlen).
  rewrite !map_app, !concat_app. reflexivity.
Qed.

Lemma flatten_app_witness :
  exists chunks1 chunk_labels1 chunks2 chunk_labels2,
    flatten_chunks ex_texts ex_labels = Ok (chunks1, chunk_labels1) /\
    flatten_chunks ex_counts_2_3 [0; 1] = Ok (chunks2, chunk_labels2) /\
    flatten_chunks (ex_texts ++ ex_counts_2_3) (ex_labels ++ [0; 1])
    = Ok (chunks1 ++ chunks2, chunk_labels1 ++ chunk_labels2).
Proof.
  apply (flatten_app ex_texts ex_counts_2_3 ex_labels [0; 1]). reflexivity.
Defined.

Lemma aggregate_ignores_surplus_witness :
  aggregate_predictions rmean ex_counts_2_3 (ex_predictions_5 ++ ex_predictions_3)
  = aggregate_predictions rmean ex_counts_2_3 ex_predictions_5.
Proof.
  apply (aggregate_ignores_surplus Z rnum rmean ex_counts_2_3
           ex_predictions_5 ex_predictions_3).
  reflexivity.
Defined.

Lemma aggregate_missing_predictions_witness :
  nth_error (aggregate_predictions rmean ex_counts_2_2
                                   (firstn 2 ex_predictions_3)) 1
  = Some (rmean []).
Proof.
  apply (aggregate_missing_predictions Z rnum rmean ex_counts_2_2
           (firstn 2 ex_predictions_3) 1 [3; 4]).
  - reflexivity.
  - cbv. discriminate.
Defined.

Lemma aggregate_app_witness :
  aggregate_predictions rmean (ex_counts_2_3 ++ ex_counts_2_2)
                        (ex_predictions_5 ++ ex_predictions_3)
  = aggregate_predictions rmean ex_counts_2_3 ex_predictions_5
      ++ aggregate_predictions rmean ex_counts_2_2 ex_predictions_3.
Proof.
  apply (aggregate_app Z rnum rmean ex_counts_2_3 ex_counts_2_2
           ex_predictions_5 ex_predictions_3).
  reflexivity.
Defined.

Lemma flatten_then_aggregate_witness :
  exists all_texts all_labels,
    flatten_chunks ex_texts ex_labels = Ok (all_texts, all_labels) /\
    aggregate_predictions rmean ex_texts
                          (map (fun c => Num (c # 10)) all_texts)
    = map (fun text => rmean (map (fun c => Num (c # 10)) text)) ex_texts.
Proof.
  apply (flatten_then_aggregate Z rnum rmean Z (fun c => Num (c # 10))
           ex_texts ex_labels).
  reflexivity.
Defined.

(** ** numpy arrays *)

Section NumpyFacts.

Context {F : Type}.

Lemma same_shape_refl (s : list nat) : Np.same_shape s s = true.
Proof. unfold Np.same_shape. destruct (list_eq_dec Nat.eq_dec s s); congruence. Qed.

Lemma nat_sum_from (xs : list nat) :
  forall a, fold_left Nat.add xs a = (a + fold_left Nat.add xs 0)%nat.
Proof.
  induction xs as [|x xs IH]; intros a; cbn [fold_left].
  - lia.
  - rewrite (IH (a + x)%nat), (IH (0 + x)%nat). lia.
Qed.

Lemma nat_sum_lengths {A : Type} (ls : list (list A)) :
  fold_left Nat.add (map (@length A) ls) 0%nat = length (concat ls).
Proof.
  induction ls as [|l ls IH]; [reflexivity|].
  cbn [map fold_left concat]. rewrite nat_sum_from, IH, length_app. lia.
Qed.

Lemma concat_concat {A : Type} (lss : list (list (list A))) :
  concat (concat lss) = concat (map (@concat A) lss).
Proof.
  induction lss as [|ls lss IH]; [reflexivity|].
  cbn [concat map]. rewrite concat_app, IH. reflexivity.
Qed.

(** Stacking a non-empty list of arrays of one shape. *)
Lemma array_of_arrays_uniform (inner : list nat) (arrays : list (Np.ndarray F)) :
  arrays <> [] ->
  Forall (fun a => Np.shape a = inner) arrays ->
  Np.array_of_arrays arrays = Ok (Np.stacked inner arrays).
Proof.
  intros Hne Hall. destruct arrays as [|a rest]; [congruence|].
  unfold Np.array_of_arrays.
  assert (Ha : Np.shape a = inner) by (inversion Hall; assumption).
  rewrite Ha.
  replace (forallb _ (a :: rest)) with true; [reflexivity|].
  symmetry. apply forallb_forall. intros b Hb.
  rewrite Forall_forall in Hall. rewrite (Hall b Hb).
  apply same_shape_refl.
Qed.

Lemma to_int32_id (z : Z) : Np.is_int32 z -> Np.to_int32 z = z.
Proof.
  unfold Np.is_int32, Np.to_int32. intros H.
  rewrite Z.mod_small; lia.
Qed.

Lemma array_of_ints_in_range (xs : list Z) :
  Forall Np.is_int32 xs ->
  Np.array_of_ints F xs = Np.mk_ndarray [length xs] (map Np.Int32 xs).
Proof.
  intros H. unfold Np.array_of_ints. f_equal.
  apply map_ext_in. intros z Hz. rewrite Forall_forall in H.
  rewrite to_int32_id by (apply H; assumption). reflexivity.
Qed.

(** Concatenating a non-empty list of arrays that agree after the first
    axis adds up the first axes and joins the data. *)
Lemma concatenate_uniform (inner : list nat) (arrays : list (Np.ndarray F)) :
  arrays <> [] ->
  Forall (fun a => exists n, Np.shape a = n :: inner) arrays ->
  Np.concatenate arrays =
  Ok (Np.mk_ndarray
        (fold_left Nat.add (map (@Np.rows F) arrays) 0%nat :: inner)
        (concat (map (@Np.data F) arrays))).
Proof.
  intros Hne Hall. destruct arrays as [|a rest]; [congruence|].
  unfold Np.concatenate.
  inversion Hall as [|? ? [n Hn] Hrest]; subst. rewrite Hn.
  replace (forallb _ rest) with true; [reflexivity|].
  symmetry. apply forallb_forall. intros b Hb.
  rewrite Forall_forall in Hrest. destruct (Hrest b Hb) as [m Hm].
  rewrite Hm. apply same_shape_refl.
Qed.

(** Concatenating stacked batches gives the stack of all their arrays. *)
Lemma concatenate_stacked (inner : list nat) (batches : list (list (Np.ndarray F))) :
  batches <> [] ->
  Np.concatenate (map (Np.stacked inner) batches)
  = Ok (Np.stacked inner (concat batches)).
Proof.
  intros Hne.
  rewrite (concatenate_uniform inner).
  - unfold Np.stacked. do 2 f_equal.
    + f_equal. rewrite map_map. cbn [Np.rows Np.shape hd].
      apply nat_sum_lengths.
    + rewrite map_map. cbn [Np.data].
      rewrite concat_map, concat_concat, map_map. reflexivity.
  - destruct batches; [congruence | discriminate].
  - apply Forall_forall. intros a Ha. apply in_map_iff in Ha.
    destruct Ha as (b & <- & _). eexists. reflexivity.
Qed.

(** Likewise for the label arrays. *)
Lemma concatenate_ints (batches : list (list Z)) :
  batches <> [] ->
  Np.concatenate (map (Np.array_of_ints F) batches)
  = Ok (Np.array_of_ints F (concat batches)).
Proof.
  intros Hne.
  rewrite (concatenate_uniform []).
  - unfold Np.array_of_ints. do 2 f_equal.
    + f_equal. rewrite map_map. cbn [Np.rows Np.shape hd].
      apply nat_sum_lengths.
    + rewrite map_map. cbn [Np.data]. rewrite concat_map. reflexivity.
  - destruct batches; [congruence | discriminate].
  - apply Forall_forall. intros a Ha. apply in_map_iff in Ha.
    destruct Ha as (b & <- & _). eexists. reflexivity.
Qed.

(** The reading loop in terms of [np.load]. *)
Lemma read_loop_loads (f : Np.file F) (embeddings labels : list (Np.ndarray F)) :
  read_loop f embeddings labels =
  match Np.load f with
  | Raise _ => (embeddings, labels)
  | Ok (batch_embeddings, f1) =>
      match Np.load f1 with
      | Raise _ => (embeddings, labels)
      | Ok (batch_labels, f2) =>
          read_loop f2 (embeddings ++ [batch_embeddings])
                    (labels ++ [batch_labels])
      end
  end.
Proof. destruct f as [|a [|b f2]]; reflexivity. Qed.

(** Reading batch-pairs followed by at most one more block collects the
    pairs and leaves that block out. *)
Lemma read_loop_pairs (pairs : list (Np.ndarray F * Np.ndarray F))
    (tail : Np.file F) :
  (length tail <= 1)%nat ->
  forall embeddings labels,
    read_loop (pair_blocks pairs ++ tail) embeddings labels =
    (embeddings ++ map fst pairs, labels ++ map snd pairs).
Proof.
  intros Htail. induction pairs as [|p pairs IH]; intros embeddings labels.
  - cbn [pair_blocks flat_map app map]. rewrite !app_nil_r.
    destruct tail as [|x [|y tail]]; [reflexivity | reflexivity |].
    cbn [length] in Htail. lia.
  - unfold pair_blocks in *. cbn [flat_map app read_loop map].
    rewrite IH, <- !app_assoc. reflexivity.
Qed.

End NumpyFacts.

(** ** Embedding store *)

(** One step of an index through the residues of a positive modulus:
    either the next index is a multiple, or the residue grows by one. *)
Lemma mod_succ (i b : Z) :
  0 < b -> 0 <= i ->
  ((i + 1) mod b = 0 /\ i mod b = b - 1) \/
  ((i + 1) mod b = i mod b + 1 /\ i mod b + 1 < b).
Proof.
  intros Hb Hi.
  pose proof (Z.mod_pos_bound i b Hb) as Hr.
  destruct (Z.eq_dec (i mod b) (b - 1)) as [Heq | Hneq].
  - left. split; [|exact Heq].
    rewrite <- Zplus_mod_idemp_l, Heq.
    replace (b - 1 + 1) with (1 * b) by lia. apply Z.mod_mul. lia.
  - right. split; [|lia].
    rewrite <- Zplus_mod_idemp_l. apply Z.mod_small. lia.
Qed.

(** The batches of a batching, joined, are the list. *)
Lemma batching_concat {A : Type} (b : nat) (l : list A) (bs : list (list A)) :
  batching b l bs -> concat bs = l.
Proof.
  induction 1 as [|l Hl|x l bs Hx Hb IH]; cbn [concat].
  - reflexivity.
  - apply app_nil_r.
  - rewrite IH. reflexivity.
Qed.

Lemma batching_nonempty {A : Type} (b : nat) (l : list A) (bs : list (list A)) :
  batching b l bs -> l <> [] -> bs <> [].
Proof. intros H Hl. destruct H; [congruence | discriminate | discriminate]. Qed.

Section StoreFacts.

Context {F : Type}.

Variable bert_model : BertModel F.
Variable tokenizer : Tokenizer.

Lemma append_blocks_same (fs : filesystem F) (filename : string)
    (blocks : list (Np.ndarray F)) :
  append_blocks fs filename blocks filename
  = Some (contents fs filename ++ blocks).
Proof.
  unfold append_blocks, contents. rewrite String.eqb_refl.
  destruct (fs filename); reflexivity.
Qed.

Lemma append_blocks_other (fs : filesystem F) (filename name : string)
    (blocks : list (Np.ndarray F)) :
  name <> filename -> append_blocks fs filename blocks name = fs name.
Proof.
  intros Hne. unfold append_blocks.
  destruct (String.eqb name filename) eqn:E; [|reflexivity].
  apply String.eqb_eq in E. contradiction.
Qed.

Lemma batch_blocks_snoc (inner : list nat)
    (batches : list (list (Np.ndarray F) * list Z))
    (embeddings : list (Np.ndarray F)) (labels : list Z) :
  batch_blocks inner (batches ++ [(embeddings, labels)])
  = batch_blocks inner batches
      ++ [Np.stacked inner embeddings; Np.array_of_ints F labels].
Proof.
  unfold batch_blocks, pair_blocks.
  rewrite map_app, flat_map_app. cbn. reflexivity.
Qed.

Variables (filename : string) (batch_size num_texts : Z) (inner : list nat).

Hypothesis batch_size_pos : 0 < batch_size.

(** The writer's loop.  Started at index [i] with a file that holds the
    blocks of the batches flushed so far and with buffers that hold the
    [i mod batch_size] records since the last flush, it runs to the end of
    the items, returns the empty buffer, and appends to the file the blocks
    of new batches: the buffers followed by the remaining items, cut into
    batches of [batch_size] records. *)
Lemma vectorize_loop_flushes (items : list (list Z * Z)) :
  forall (i : Z) (embeddings : list (Np.ndarray F)) (all_labels : list Z)
         (fs : filesystem F)
         (batches : list (list (Np.ndarray F) * list Z)),
    0 <= i ->
    i + Py.len items = num_texts ->
    contents fs filename = batch_blocks inner batches ->
    Forall (fun e => Np.shape e = inner) embeddings ->
    Forall (fun it => Np.shape (embed bert_model tokenizer (fst it)) = inner) items ->
    (items = [] -> embeddings = [] /\ all_labels = []) ->
    (items <> [] ->
     Py.len embeddings = i mod batch_size /\
     Py.len all_labels = i mod batch_size) ->
    exists fs' flushed,
      vectorize_loop bert_model tokenizer items i num_texts filename
                     batch_size embeddings all_labels fs = (fs', Ok []) /\
      contents fs' filename = batch_blocks inner (batches ++ flushed) /\
      (items <> [] ->
       fs' filename = Some (batch_blocks inner (batches ++ flushed))) /\
      (forall name, name <> filename -> fs' name = fs name) /\
      batching (Z.to_nat batch_size)
               (embeddings ++ map (fun it => embed bert_model tokenizer (fst it)) items)
               (map fst flushed) /\
      batching (Z.to_nat batch_size)
               (all_labels ++ map snd items)
               (map snd flushed).
Proof.
  induction items as [|[text label] rest IH];
    intros i embeddings all_labels fs batches Hi0 Hi Hfs Hbuf Hitems Hend Hfill.
  - destruct (Hend eq_refl) as [-> ->].
    exists fs, []. cbn [vectorize_loop map app]. rewrite !app_nil_r.
    repeat split; trivial; try constructor. congruence.
  - cbn [vectorize_loop]. fold (embed bert_model tokenizer text).
    set (e := embed bert_model tokenizer text) in *.
    unfold Py.modulo.
    destruct (batch_size =? 0) eqn:E; [apply Z.eqb_eq in E; lia|].
    apply Forall_cons_iff in Hitems. destruct Hitems as [Hshape Hrest].
    cbn [fst] in Hshape.
    assert (Hi' : i + 1 + Py.len rest = num_texts).
    { rewrite <- Hi. unfold Py.len. cbn [length]. lia. }
    destruct (Hfill ltac:(discriminate)) as [Hfe Hfl].
    destruct (mod_succ i batch_size batch_size_pos Hi0) as [[Hm0 Hfull] | [Hm1 Hroom]].
    + (* the buffer reaches [batch_size] records and is flushed *)
      rewrite Hm0. cbn [Z.eqb orb].
      rewrite (array_of_arrays_uniform inner)
        by (try apply Forall_app; try split; auto;
            destruct embeddings; discriminate).
      set (fs1 := append_blocks fs filename _).
      assert (Hfs1 : fs1 filename
                     = Some (batch_blocks inner
                               (batches ++ [(embeddings ++ [e],
                                             all_labels ++ [label])]))).
      { unfold fs1. rewrite append_blocks_same, Hfs, batch_blocks_snoc.
        reflexivity. }
      assert (Hlen_e : length (embeddings ++ [e]) = Z.to_nat batch_size).
      { rewrite length_app. cbn [length]. unfold Py.len in Hfe. lia. }
      assert (Hlen_l : length (all_labels ++ [label]) = Z.to_nat batch_size).
      { rewrite length_app. cbn [length]. unfold Py.len in Hfl. lia. }
      destruct (IH (i + 1) [] [] fs1
                   (batches ++ [(embeddings ++ [e], all_labels ++ [label])]))
        as (fs' & flushed & Hrun & Hcont & Hsome & Hother & He & Hl);
        [ lia | exact Hi' | unfold contents; rewrite Hfs1; reflexivity
        | constructor | exact Hrest | intros _; split; reflexivity
        | intros _; rewrite Hm0; split; reflexivity | ].
      exists fs', ((embeddings ++ [e], all_labels ++ [label]) :: flushed).
      rewrite Hrun. rewrite <- app_assoc in Hcont, Hsome. cbn [app] in Hcont, Hsome.
      split; [reflexivity|]. split; [exact Hcont|].
      split; [|split; [|split]].
      * intros _. destruct rest as [|it rest'].
        -- cbn [vectorize_loop] in Hrun. injection Hrun as <-.
           rewrite Hfs1. f_equal.
           unfold contents in Hcont. rewrite Hfs1 in Hcont. exact Hcont.
        -- apply Hsome. discriminate.
      * intros name Hname. rewrite (Hother name Hname).
        unfold fs1. apply append_blocks_other. exact Hname.
      * cbn [map fst].
        rewrite (app_assoc embeddings [e] _ : embeddings ++ e :: _ = _).
        apply batching_cons; [exact Hlen_e | exact He].
      * cbn [map snd].
        rewrite (app_assoc all_labels [label] _ : all_labels ++ label :: _ = _).
        apply batching_cons; [exact Hlen_l | exact Hl].
    + destruct (i + 1 =? num_texts) eqn:Hlast.
      * (* the last item: the buffer is flushed short of [batch_size] *)
        apply Z.eqb_eq in Hlast. rewrite orb_true_r.
        assert (Hnil : rest = []).
        { destruct rest; [reflexivity|]. unfold Py.len in Hi'. cbn [length] in Hi'. lia. }
        subst rest.
        rewrite (array_of_arrays_uniform inner)
          by (try apply Forall_app; try split; auto;
              destruct embeddings; discriminate).
        cbn [vectorize_loop map].
        eexists. exists [(embeddings ++ [e], all_labels ++ [label])].
        split; [reflexivity|].
        assert (Hsome : append_blocks fs filename
                          [Np.stacked inner (embeddings ++ [e]);
                           Np.array_of_ints F (all_labels ++ [label])] filename
                        = Some (batch_blocks inner
                                  (batches ++ [(embeddings ++ [e],
                                                all_labels ++ [label])]))).
        { rewrite append_blocks_same, Hfs, batch_blocks_snoc. reflexivity. }
        split; [unfold contents; rewrite Hsome; reflexivity|].
        split; [intros _; exact Hsome|].
        split; [intros name Hname; apply append_blocks_other; exact Hname|].
        cbn [map fst snd]. split; apply batching_last;
          rewrite length_app; cbn [length]; unfold Py.len in Hfe, Hfl; lia.
      * (* no flush: the item stays in the buffer, and it is not the last *)
        apply Z.eqb_neq in Hlast.
        replace ((i + 1) mod batch_size =? 0) with false
          by (symmetry; apply Z.eqb_neq; pose proof (Z.mod_pos_bound i batch_size batch_size_pos); lia).
        cbn [orb].
        assert (Hne : rest <> []).
        { intros ->. apply Hlast. rewrite <- Hi'. unfold Py.len. cbn [length]. lia. }
        destruct (IH (i + 1) (embeddings ++ [e]) (all_labels ++ [label])
                     fs batches)
          as (fs' & flushed & Hrun & Hcont & Hsome & Hother & He & Hl);
          [ lia | exact Hi' | exact Hfs
          | apply Forall_app; split; [exact Hbuf | repeat constructor; exact Hshape]
          | exact Hrest | intros ->; contradiction
          | intros _; rewrite !len_app, Hfe, Hfl, Hm1; split; reflexivity | ].
        exists fs', flushed. rewrite Hrun.
        split; [reflexivity|]. split; [exact Hcont|].
        split; [|split; [|split]].
        -- intros _. apply Hsome. exact Hne.
        -- exact Hother.
        -- cbn [map fst]. rewrite <- app_assoc in He. exact He.
        -- cbn [map snd]. rewrite <- app_assoc in Hl. exact Hl.
Qed.

End StoreFacts.

(** What the reader returns on a file of batch-pairs of given batches. *)
Lemma load_batch_blocks {F : Type} (file_path : string) (fs : filesystem F)
    (inner : list nat) (batches : list (list (Np.ndarray F) * list Z)) :
  batches <> [] ->
  fs file_path = Some (batch_blocks inner batches) ->
  load_embeddings_and_labels file_path fs
  = Ok (Np.stacked inner (concat (map fst batches)),
        Np.array_of_ints F (concat (map snd batches))).
Proof.
  intros Hne Hfs. unfold load_embeddings_and_labels. rewrite Hfs.
  unfold batch_blocks.
  rewrite <- (app_nil_r (pair_blocks _)), read_loop_pairs by (cbn; lia).
  cbn [app]. rewrite !map_map. cbn [fst snd].
  rewrite <- (map_map fst (Np.stacked inner)).
  rewrite <- (map_map snd (Np.array_of_ints F)).
  rewrite concatenate_stacked, concatenate_ints
    by (destruct batches; [congruence | discriminate]).
  reflexivity.
Qed.

(** C1 (as amended): for every non-empty sequence of chunks with their
    labels, every positive batch size and a fresh destination, when the
    encoder returns arrays of one shape and the labels are 32-bit
    integers, the writer runs to the end and leaves in the destination the
    batch-pairs of the sequence cut into batches of [batch_size] records;
    the reader then returns the stack of all embeddings in chunk order and
    the array of all labels in order, a result that does not mention the
    batch size. *)
Theorem store_roundtrip {F : Type} (bert_model : BertModel F)
    (tokenizer : Tokenizer) (texts : list (list Z)) (labels : list Z)
    (filename : string) (batch_size : Z) (fs : filesystem F)
    (inner : list nat) :
  texts <> [] ->
  length texts = length labels ->
  0 < batch_size ->
  fresh fs filename ->
  Forall (fun text => Np.shape (embed bert_model tokenizer text) = inner)
         texts ->
  Forall Np.is_int32 labels ->
  let embeddings := map (embed bert_model tokenizer) texts in
  exists fs' batches,
    vectorize_text bert_model tokenizer texts labels filename batch_size fs
    = (fs', Ok []) /\
    fs' filename = Some (batch_blocks inner batches) /\
    batching (Z.to_nat batch_size) embeddings (map fst batches) /\
    batching (Z.to_nat batch_size) labels (map snd batches) /\
    load_embeddings_and_labels filename fs'
    = Ok (Np.mk_ndarray (length texts :: inner)
                        (concat (map (@Np.data F) embeddings)),
          Np.mk_ndarray [length labels] (map Np.Int32 labels)) /\
    Np.array_of_arrays embeddings
    = Ok (Np.mk_ndarray (length texts :: inner)
                        (concat (map (@Np.data F) embeddings))).
Proof.
  intros Hne Hlen Hb Hfresh Hshape Hrange embeddings.
  assert (Hzip_ne : Py.zip texts labels <> []).
  { destruct texts, labels; try discriminate; congruence. }
  assert (Hzlen : Py.len (Py.zip texts labels) = Py.len texts).
  { unfold Py.len, Py.zip. rewrite length_combine. lia. }
  assert (Hsnd : map snd (Py.zip texts labels) = labels).
  { unfold Py.zip. clear -Hlen. revert labels Hlen.
    induction texts as [|t texts IH]; intros [|l labels] H;
      try discriminate H; [reflexivity|].
    cbn [combine map snd]. f_equal. apply IH. injection H. trivial. }
  destruct (vectorize_loop_flushes bert_model tokenizer filename batch_size
              (Py.len texts) inner Hb (Py.zip texts labels) 0 [] [] fs [])
    as (fs' & batches & Hrun & _ & Hsome & _ & He & Hl).
  - lia.
  - lia.
  - destruct Hfresh as [H | H]; unfold contents; rewrite H; reflexivity.
  - constructor.
  - apply Forall_forall. intros [text label] Hin. cbn [fst].
    rewrite Forall_forall in Hshape. apply Hshape.
    unfold Py.zip in Hin. apply in_combine_l in Hin. exact Hin.
  - intros H. contradiction.
  - intros _. rewrite Z.mod_0_l by lia. split; reflexivity.
  - cbn [app] in He, Hl, Hsome.
    rewrite <- (map_map fst (embed bert_model tokenizer)) in He.
    rewrite zip_fst in He by exact Hlen. fold embeddings in He.
    rewrite Hsnd in Hl.
    pose proof (batching_concat _ _ _ He) as Hce.
    pose proof (batching_concat _ _ _ Hl) as Hcl.
    assert (Hbatches : batches <> []).
    { intros ->. cbn in Hce. unfold embeddings in Hce.
      destruct texts; [congruence | discriminate Hce]. }
    exists fs', batches. split; [exact Hrun|].
    split; [exact (Hsome Hzip_ne)|].
    split; [exact He|]. split; [exact Hl|].
    split.
    + rewrite (load_batch_blocks filename fs' inner batches Hbatches (Hsome Hzip_ne)).
      rewrite Hce, Hcl, array_of_ints_in_range by exact Hrange.
      unfold Np.stacked. unfold embeddings at 1.
      rewrite length_map. reflexivity.
    + rewrite (array_of_arrays_uniform inner).
      * unfold Np.stacked, embeddings. rewrite length_map. reflexivity.
      * unfold embeddings. destruct texts; [congruence | discriminate].
      * unfold embeddings. apply Forall_map. exact Hshape.
Qed.

Lemma store_roundtrip_witness :
  exists fs' batches,
    vectorize_text ex_bert_model ex_tokenizer ex_chunks ex_chunk_labels
                   "test_bert_embeddings.npy" 2 no_files
    = (fs', Ok []) /\
    fs' "test_bert_embeddings.npy"%string
    = Some (batch_blocks [1%nat; 2%nat] batches) /\
    batching (Z.to_nat 2) (map (embed ex_bert_model ex_tokenizer) ex_chunks)
             (map fst batches) /\
    batching (Z.to_nat 2) ex_chunk_labels (map snd batches) /\
    load_embeddings_and_labels "test_bert_embeddings.npy" fs'
    = Ok (Np.mk_ndarray
            (length ex_chunks :: [1%nat; 2%nat])
            (concat (map (@Np.data Q)
                         (map (embed ex_bert_model ex_tokenizer) ex_chunks))),
          Np.mk_ndarray [length ex_chunk_labels]
                        (map Np.Int32 ex_chunk_labels)) /\
    Np.array_of_arrays (map (embed ex_bert_model ex_tokenizer) ex_chunks)
    = Ok (Np.mk_ndarray
            (length ex_chunks :: [1%nat; 2%nat])
            (concat (map (@Np.data Q)
                         (map (embed ex_bert_model ex_tokenizer) ex_chunks)))).
Proof.
  apply (store_roundtrip ex_bert_model ex_tokenizer ex_chunks ex_chunk_labels
           "test_bert_embeddings.npy" 2 no_files [1%nat; 2%nat]).
  - discriminate.
  - reflexivity.
  - lia.
  - left. reflexivity.
  - repeat constructor.
  - unfold ex_chunk_labels, Np.is_int32. repeat constructor; lia.
Defined.

(** C1 (as stated) fails on the empty sequence: the writer then never
    opens the destination, and the reader raises, [FileNotFoundError] when
    the destination was absent and [ValueError] when it was an empty
    file. *)
Lemma store_roundtrip_empty_sequence_raises :
  snd (vectorize_text ex_bert_model ex_tokenizer [] []
                      "test_bert_embeddings.npy" 100 no_files) = Ok [] /\
  load_embeddings_and_labels "test_bert_embeddings.npy"
    (fst (vectorize_text ex_bert_model ex_tokenizer [] []
                         "test_bert_embeddings.npy" 100 no_files))
  = Raise FileNotFoundError /\
  load_embeddings_and_labels "test_bert_embeddings.npy"
    (fst (vectorize_text ex_bert_model ex_tokenizer [] []
                         "test_bert_embeddings.npy" 100 empty_files))
  = Raise ValueError.
Proof. repeat split. Qed.

(** C10: on a store file without any batch-pair (no block at all, or a
    single block) the reader raises [ValueError], the exception of
    [np.concatenate] on an empty list; it does not return empty arrays. *)
Theorem load_empty_store_raises {F : Type} (file_path : string)
    (fs : filesystem F) (blocks : Np.file F) :
  fs file_path = Some blocks ->
  (length blocks < 2)%nat ->
  load_embeddings_and_labels file_path fs = Raise ValueError /\
  read_loop blocks [] [] = ([], []) /\
  Np.concatenate (@nil (Np.ndarray F)) = Raise ValueError.
Proof.
  intros Hfs Hlen. unfold load_embeddings_and_labels. rewrite Hfs.
  destruct blocks as [|a [|b blocks]].
  - repeat split.
  - repeat split.
  - cbn [length] in Hlen. lia.
Qed.

Lemma load_empty_store_raises_witness :
  load_embeddings_and_labels "train_bert_embeddings.npy" empty_files
  = Raise ValueError /\
  read_loop (@nil (Np.ndarray Q)) [] [] = ([], []) /\
  Np.concatenate (@nil (Np.ndarray Q)) = Raise ValueError.
Proof.
  apply (load_empty_store_raises "train_bert_embeddings.npy" empty_files []).
  - reflexivity.
  - cbn. lia.
Defined.

(** C6 (as amended): the reader raises nothing on a trailing unmatched
    block.  On a file of one or more well-formed batch-pairs, followed or
    not by one more block, it returns the concatenation of the pairs'
    embedding blocks and of their label blocks, both with as many rows as
    the pairs hold records; the trailing block is left out. *)
Theorem load_drops_trailing_block {F : Type} (file_path : string)
    (fs : filesystem F) (inner : list nat)
    (pairs : list (Np.ndarray F * Np.ndarray F)) (tail : Np.file F) :
  fs file_path = Some (pair_blocks pairs ++ tail) ->
  (length tail <= 1)%nat ->
  pairs <> [] ->
  Forall (well_formed_pair inner) pairs ->
  exists embeddings labels,
    load_embeddings_and_labels file_path fs = Ok (embeddings, labels) /\
    Np.rows embeddings = record_count pairs /\
    Np.rows labels = record_count pairs /\
    Np.data embeddings = concat (map (fun p => Np.data (fst p)) pairs) /\
    Np.data labels = concat (map (fun p => Np.data (snd p)) pairs).
Proof.
  intros Hfs Htail Hne Hwf.
  unfold load_embeddings_and_labels. rewrite Hfs.
  rewrite read_loop_pairs by exact Htail. cbn [app].
  rewrite (concatenate_uniform inner), (concatenate_uniform []).
  - cbn [bind]. do 2 eexists. split; [reflexivity|].
    cbn [Np.rows Np.shape Np.data hd]. rewrite !map_map.
    unfold record_count. repeat split.
    f_equal. apply map_ext_in. intros p Hp.
    rewrite Forall_forall in Hwf. destruct (Hwf p Hp) as (n & He & Hl).
    unfold Np.rows. rewrite He, Hl. reflexivity.
  - destruct pairs; [congruence | discriminate].
  - apply Forall_forall. intros a Ha. apply in_map_iff in Ha.
    destruct Ha as (p & <- & Hp).
    rewrite Forall_forall in Hwf. destruct (Hwf p Hp) as (n & _ & Hl).
    exists n. exact Hl.
  - destruct pairs; [congruence | discriminate].
  - apply Forall_forall. intros a Ha. apply in_map_iff in Ha.
    destruct Ha as (p & <- & Hp).
    rewrite Forall_forall in Hwf. destruct (Hwf p Hp) as (n & He & _).
    exists n. exact He.
Qed.

Lemma load_drops_trailing_block_witness :
  exists embeddings labels,
    load_embeddings_and_labels "train_bert_embeddings.npy" truncated_store
    = Ok (embeddings, labels) /\
    Np.rows embeddings = record_count [(ex_embedding_block, ex_label_block)] /\
    Np.rows labels = record_count [(ex_embedding_block, ex_label_block)] /\
    Np.data embeddings
    = concat (map (fun p => Np.data (fst p))
                  [(ex_embedding_block, ex_label_block)]) /\
    Np.data labels
    = concat (map (fun p => Np.data (snd p))
                  [(ex_embedding_block, ex_label_block)]).
Proof.
  apply (load_drops_trailing_block "train_bert_embeddings.npy" truncated_store
           [1%nat; 2%nat] [(ex_embedding_block, ex_label_block)]
           [ex_trailing_block]).
  - reflexivity.
  - cbn. lia.
  - discriminate.
  - repeat constructor. exists 2%nat. split; reflexivity.
Defined.

(** C6 (as stated) fails: on a store that ends in an embedding block
    without its label block the reader returns the arrays of the complete
    batch-pair before it; nothing is raised. *)
Lemma load_truncated_store_returns :
  truncated_store "train_bert_embeddings.npy"%string
  = Some (pair_blocks [(ex_embedding_block, ex_label_block)]
            ++ [ex_trailing_block]) /\
  load_embeddings_and_labels "train_bert_embeddings.npy" truncated_store
  = Ok (ex_embedding_block, ex_label_block).
Proof. split; reflexivity. Qed.

(** Three records written with a batch size of two: a batch-pair of two
    records and one of the last record. *)
Example vectorize_text_three_records :
  fst (vectorize_text ex_bert_model ex_tokenizer ex_chunks ex_chunk_labels
                      "test_bert_embeddings.npy" 2 no_files)
      "test_bert_embeddings.npy"%string
  = Some [Np.mk_ndarray [2%nat; 1%nat; 2%nat]
            [Np.Float32 (1 # 1); Np.Float32 (7 # 10);
             Np.Float32 (2 # 1); Np.Float32 (7 # 10)];
          Np.mk_ndarray [2%nat] [Np.Int32 0; Np.Int32 1];
          Np.mk_ndarray [1%nat; 1%nat; 2%nat]
            [Np.Float32 (3 # 1); Np.Float32 (7 # 10)];
          Np.mk_ndarray [1%nat] [Np.Int32 1]].
Proof. reflexivity. Qed.

(** A batch size of zero makes the first flush test raise. *)
Example vectorize_text_zero_batch_size :
  snd (vectorize_text ex_bert_model ex_tokenizer ex_chunks ex_chunk_labels
                      "test_bert_embeddings.npy" 0 no_files)
  = Raise ZeroDivisionError.
Proof. reflexivity. Qed.

(** ** More on the embedding store *)

Lemma array_of_arrays_rows {F : Type} (arrays : list (Np.ndarray F))
    (a : Np.ndarray F) :
  arrays <> [] ->
  Np.array_of_arrays arrays = Ok a -> Np.rows a = length arrays.
Proof.
  intros Hne Hok. destruct arrays as [|x rest]; [congruence|].
  unfold Np.array_of_arrays in Hok.
  destruct (forallb _ (x :: rest)); [|discriminate Hok].
  injection Hok as <-. reflexivity.
Qed.

Lemma contents_append_blocks {F : Type} (fs : filesystem F) (filename : string)
    (blocks : list (Np.ndarray F)) :
  contents (append_blocks fs filename blocks) filename
  = contents fs filename ++ blocks.
Proof. unfold contents at 1. rewrite append_blocks_same. reflexivity. Qed.

Section WriterInvariants.

Context {F : Type}.

Variable bert_model : BertModel F.
Variable tokenizer : Tokenizer.
Variables (filename : string) (batch_size num_texts : Z).

(** Whatever the batch size and whether it ends normally or in an
    exception, the writer's loop only appends to its destination, appends
    whole batch-pairs whose two blocks have the same number of rows, and
    leaves every other file as it was. *)
Lemma vectorize_loop_whole_pairs (items : list (list Z * Z)) :
  forall (i : Z) (embeddings : list (Np.ndarray F)) (all_labels : list Z)
         (fs : filesystem F),
    length embeddings = length all_labels ->
    exists pairs,
      contents (fst (vectorize_loop bert_model tokenizer items i num_texts
                                    filename batch_size embeddings all_labels fs))
               filename
      = contents fs filename ++ pair_blocks pairs /\
      Forall (fun p => Np.rows (fst p) = Np.rows (snd p)) pairs /\
      (forall name, name <> filename ->
         fst (vectorize_loop bert_model tokenizer items i num_texts
                             filename batch_size embeddings all_labels fs) name
         = fs name).
Proof.
  induction items as [|[text label] rest IH];
    intros i embeddings all_labels fs Hlen.
  - exists []. cbn. rewrite app_nil_r. auto.
  - cbn [vectorize_loop].
    destruct (Py.modulo (i + 1) batch_size) as [r | e].
    2:{ exists []. cbn. rewrite app_nil_r. auto. }
    destruct ((r =? 0) || (i + 1 =? num_texts)).
    + destruct (Np.array_of_arrays _) as [batch_embeddings | e] eqn:Hstack.
      2:{ exists []. cbn. rewrite app_nil_r. auto. }
      apply array_of_arrays_rows in Hstack;
        [|destruct embeddings; discriminate].
      destruct (IH (i + 1) [] []
                   (append_blocks fs filename
                      [batch_embeddings;
                       Np.array_of_ints F (all_labels ++ [label])])
                   eq_refl)
        as (pairs & Hcont & Hrows & Hother).
      exists ((batch_embeddings, Np.array_of_ints F (all_labels ++ [label]))
                :: pairs).
      split; [|split].
      * rewrite Hcont, contents_append_blocks, <- app_assoc. reflexivity.
      * constructor; [|exact Hrows].
        cbn [fst snd]. rewrite Hstack. cbn.
        rewrite !length_app. cbn [length]. lia.
      * intros name Hname. rewrite (Hother name Hname).
        apply append_blocks_other. exact Hname.
    + apply IH. rewrite !length_app. cbn [length]. lia.
Qed.

End WriterInvariants.

(** X11: a run of the writer that returns normally only appends to its
    destination, and appends whole batch-pairs: for 32-bit labels, every
    batch size and any numbers of chunks and labels, the destination
    afterwards holds what it held before followed by complete batch-pairs,
    each with as many embedding rows as labels. *)
Theorem vectorize_text_appends_whole_pairs {F : Type}
    (bert_model : BertModel F) (tokenizer : Tokenizer)
    (texts : list (list Z)) (labels : list Z) (filename : string)
    (batch_size : Z) (fs : filesystem F) (left_labels : list Z) :
  Forall Np.is_int32 labels ->
  snd (vectorize_text bert_model tokenizer texts labels filename batch_size fs)
  = Ok left_labels ->
  exists pairs,
    contents (fst (vectorize_text bert_model tokenizer texts labels
                                  filename batch_size fs)) filename
    = contents fs filename ++ pair_blocks pairs /\
    Forall (fun p => Np.rows (fst p) = Np.rows (snd p)) pairs.
Proof.
  intros _ _.
  destruct (vectorize_loop_whole_pairs bert_model tokenizer filename batch_size
              (Py.len texts) (Py.zip texts labels) 0 [] [] fs eq_refl)
    as (pairs & Hcont & Hrows & _).
  exists pairs. split; assumption.
Qed.

Lemma vectorize_text_appends_whole_pairs_witness :
  exists pairs,
    contents (fst (vectorize_text ex_bert_model ex_tokenizer ex_chunks
                                  ex_chunk_labels "test_bert_embeddings.npy"
                                  2 truncated_store))
             "test_bert_embeddings.npy"
    = contents truncated_store "test_bert_embeddings.npy" ++ pair_blocks pairs /\
    Forall (fun p => Np.rows (fst p) = Np.rows (snd p)) pairs.
Proof.
  apply (vectorize_text_appends_whole_pairs ex_bert_model ex_tokenizer
           ex_chunks ex_chunk_labels "test_bert_embeddings.npy" 2
           truncated_store []).
  - unfold ex_chunk_labels, Np.is_int32. repeat constructor; lia.
  - reflexivity.
Defined.

(** X12: the writer touches no file but its destination, for every input and
    every batch size, also when it stops with an exception. *)
Theorem vectorize_text_other_files {F : Type}
    (bert_model : BertModel F) (tokenizer : Tokenizer)
    (texts : list (list Z)) (labels : list Z) (filename : string)
    (batch_size : Z) (fs : filesystem F) (name : string) :
  name <> filename ->
  fst (vectorize_text bert_model tokenizer texts labels filename batch_size fs)
      name
  = fs name.
Proof.
  destruct (vectorize_loop_whole_pairs bert_model tokenizer filename batch_size
              (Py.len texts) (Py.zip texts labels) 0 [] [] fs eq_refl)
    as (pairs & _ & _ & Hother).
  exact (Hother name).
Qed.

Lemma vectorize_text_other_files_witness :
  fst (vectorize_text ex_bert_model ex_tokenizer ex_chunks ex_chunk_labels
                      "test_bert_embeddings.npy" 2 empty_files)
      "train_bert_embeddings.npy"%string
  = empty_files "train_bert_embeddings.npy"%string.
Proof.
  apply (vectorize_text_other_files ex_bert_model ex_tokenizer ex_chunks
           ex_chunk_labels "test_bert_embeddings.npy" 2 empty_files
           "train_bert_embeddings.npy").
  discriminate.
Defined.

(** X13: with a batch size of zero and at least one chunk with a label, the
    flush test of the first iteration raises [ZeroDivisionError]; no file
    is changed. *)
Theorem vectorize_text_batch_size_zero {F : Type}
    (bert_model : BertModel F) (tokenizer : Tokenizer)
    (texts : list (list Z)) (labels : list Z) (filename : string)
    (fs : filesystem F) :
  texts <> [] -> labels <> [] ->
  vectorize_text bert_model tokenizer texts labels filename 0 fs
  = (fs, Raise ZeroDivisionError).
Proof.
  intros Ht Hl. destruct texts as [|t texts]; [congruence|].
  destruct labels as [|l labels]; [congruence|]. reflexivity.
Qed.

Lemma vectorize_text_batch_size_zero_witness :
  vectorize_text ex_bert_model ex_tokenizer ex_chunks ex_chunk_labels
                 "test_bert_embeddings.npy" 0 no_files
  = (no_files, Raise ZeroDivisionError).
Proof.
  apply (vectorize_text_batch_size_zero ex_bert_model ex_tokenizer ex_chunks
           ex_chunk_labels "test_bert_embeddings.npy" no_files); discriminate.
Defined.

Lemma modulo_opp_zero (a b : Z) :
  match Py.modulo a (- b), Py.modulo a b with
  | Ok r1, Ok r2 => (r1 =? 0) = (r2 =? 0)
  | Raise e1, Raise e2 => e1 = e2
  | _, _ => False
  end.
Proof.
  unfold Py.modulo.
  destruct (Z.eq_dec b 0) as [-> | Hb]; [reflexivity|].
  destruct (- b =? 0) eqn:E1; [apply Z.eqb_eq in E1; lia|].
  destruct (b =? 0) eqn:E2; [apply Z.eqb_eq in E2; lia|].
  destruct (Z.eq_dec (a mod b) 0) as [H0 | Hn0].
  - rewrite H0. apply Z.eqb_eq.
    apply Z.mod_divide; [lia|]. apply Z.divide_opp_l.
    apply Z.mod_divide; [lia | exact H0].
  - replace (a mod b =? 0) with false by (symmetry; apply Z.eqb_neq; exact Hn0).
    apply Z.eqb_neq. intros H. apply Hn0.
    apply Z.mod_divide; [lia|]. apply Z.divide_opp_l.
    apply Z.mod_divide; [lia | exact H].
Qed.

(** X14: a negative batch size behaves as its absolute value: Python's [%]
    with a negative modulus is zero for the same indices. *)
Theorem vectorize_text_negative_batch_size {F : Type}
    (bert_model : BertModel F) (tokenizer : Tokenizer)
    (texts : list (list Z)) (labels : list Z) (filename : string)
    (batch_size : Z) (fs : filesystem F) :
  vectorize_text bert_model tokenizer texts labels filename (- batch_size) fs
  = vectorize_text bert_model tokenizer texts labels filename batch_size fs.
Proof.
  unfold vectorize_text.
  generalize (Py.zip texts labels) as items, 0 as i,
             (@nil (Np.ndarray F)) as embeddings, (@nil Z) as all_labels, fs as fs0.
  induction items as [|[text label] rest IH];
    intros i embeddings all_labels fs0; [reflexivity|].
  cbn [vectorize_loop].
  pose proof (modulo_opp_zero (i + 1) batch_size) as Hmod.
  destruct (Py.modulo (i + 1) (- batch_size)) as [r1 | e1],
           (Py.modulo (i + 1) batch_size) as [r2 | e2];
    try contradiction; [|congruence].
  rewrite Hmod.
  destruct ((r2 =? 0) || (i + 1 =? Py.len texts)).
  - destruct (Np.array_of_arrays _); [apply IH | reflexivity].
  - apply IH.
Qed.

Lemma zip_fst_firstn {A B : Type} (xs : list A) (ys : list B) :
  map fst (Py.zip xs ys) = firstn (length ys) xs.
Proof.
  unfold Py.zip. revert ys.
  induction xs as [|x xs IH]; intros [|y ys]; try reflexivity.
  cbn [combine map fst length firstn]. f_equal. apply IH.
Qed.

Lemma zip_snd {A B : Type} (xs : list A) (ys : list B) :
  (length ys <= length xs)%nat -> map snd (Py.zip xs ys) = ys.
Proof.
  unfold Py.zip. revert ys.
  induction xs as [|x xs IH]; intros [|y ys] H; cbn [length] in H;
    try reflexivity; [lia|].
  cbn [combine map snd]. f_equal. apply IH. lia.
Qed.

Section WriterRuns.

Context {F : Type}.

Variable bert_model : BertModel F.
Variable tokenizer : Tokenizer.
Variables (filename : string) (inner : list nat).

Lemma zip_shapes (texts : list (list Z)) (labels : list Z) :
  Forall (fun text => Np.shape (embed bert_model tokenizer text) = inner) texts ->
  Forall (fun it => Np.shape (embed bert_model tokenizer (fst it)) = inner)
         (Py.zip texts labels).
Proof.
  intros Hshape. apply Forall_forall. intros [text label] Hin. cbn [fst].
  rewrite Forall_forall in Hshape. apply Hshape.
  unfold Py.zip in Hin. apply in_combine_l in Hin. exact Hin.
Qed.

(** One complete run of the writer on a destination that holds the blocks
    of earlier batches: the new batches follow them. *)
Lemma vectorize_text_flushes (texts : list (list Z)) (labels : list Z)
    (batch_size : Z) (fs : filesystem F)
    (batches : list (list (Np.ndarray F) * list Z)) :
  texts <> [] ->
  length texts = length labels ->
  0 < batch_size ->
  contents fs filename = batch_blocks inner batches ->
  Forall (fun text => Np.shape (embed bert_model tokenizer text) = inner) texts ->
  exists fs' flushed,
    vectorize_text bert_model tokenizer texts labels filename batch_size fs
    = (fs', Ok []) /\
    fs' filename = Some (batch_blocks inner (batches ++ flushed)) /\
    concat (map fst flushed) = map (embed bert_model tokenizer) texts /\
    concat (map snd flushed) = labels.
Proof.
  intros Hne Hlen Hb Hfs Hshape.
  assert (Hzip_ne : Py.zip texts labels <> []).
  { destruct texts, labels; try discriminate; congruence. }
  assert (Hzlen : Py.len (Py.zip texts labels) = Py.len texts).
  { unfold Py.len, Py.zip. rewrite length_combine. lia. }
  destruct (vectorize_loop_flushes bert_model tokenizer filename batch_size
              (Py.len texts) inner Hb (Py.zip texts labels) 0 [] [] fs batches)
    as (fs' & flushed & Hrun & _ & Hsome & _ & He & Hl).
  - lia.
  - lia.
  - exact Hfs.
  - constructor.
  - apply zip_shapes. exact Hshape.
  - intros H. contradiction.
  - intros _. rewrite Z.mod_0_l by lia. split; reflexivity.
  - exists fs', flushed. split; [exact Hrun|]. split; [exact (Hsome Hzip_ne)|].
    cbn [app] in He, Hl.
    apply batching_concat in He. apply batching_concat in Hl.
    rewrite <- (map_map fst (embed bert_model tokenizer)) in He.
    rewrite zip_fst in He by exact Hlen.
    rewrite zip_snd in Hl by lia.
    split; assumption.
Qed.

(** The writer's loop when the items end before index [num_texts] is
    reached: only full batches are flushed, and the records after the last
    full batch stay in the buffers; the label buffer is what is returned. *)
Lemma vectorize_loop_unfinished (batch_size num_texts : Z)
    (items : list (list Z * Z)) :
  0 < batch_size ->
  forall (i : Z) (embeddings : list (Np.ndarray F)) (all_labels : list Z)
         (fs : filesystem F)
         (batches : list (list (Np.ndarray F) * list Z)),
    0 <= i ->
    i + Py.len items < num_texts ->
    contents fs filename = batch_blocks inner batches ->
    Forall (fun e => Np.shape e = inner) embeddings ->
    Forall (fun it => Np.shape (embed bert_model tokenizer (fst it)) = inner) items ->
    Py.len embeddings = i mod batch_size ->
    Py.len all_labels = i mod batch_size ->
    exists fs' flushed left_embeddings left_labels,
      vectorize_loop bert_model tokenizer items i num_texts filename
                     batch_size embeddings all_labels fs
      = (fs', Ok left_labels) /\
      contents fs' filename = batch_blocks inner (batches ++ flushed) /\
      Forall (fun batch => Py.len (fst batch) = batch_size /\
                           Py.len (snd batch) = batch_size) flushed /\
      concat (map fst flushed) ++ left_embeddings
      = embeddings ++ map (fun it => embed bert_model tokenizer (fst it)) items /\
      concat (map snd flushed) ++ left_labels = all_labels ++ map snd items /\
      Py.len left_embeddings = (i + Py.len items) mod batch_size /\
      Py.len left_labels = (i + Py.len items) mod batch_size.
Proof.
  intros Hb.
  induction items as [|[text label] rest IH];
    intros i embeddings all_labels fs batches Hi0 Hi Hfs Hbuf Hitems Hfe Hfl.
  - exists fs, [], embeddings, all_labels.
    cbn [vectorize_loop map concat app]. rewrite !app_nil_r.
    change (Py.len []) with 0. rewrite Z.add_0_r. repeat split; trivial.
  - cbn [vectorize_loop]. fold (embed bert_model tokenizer text).
    set (e := embed bert_model tokenizer text) in *.
    unfold Py.modulo.
    destruct (batch_size =? 0) eqn:E; [apply Z.eqb_eq in E; lia|].
    apply Forall_cons_iff in Hitems. destruct Hitems as [Hshape Hrest].
    cbn [fst] in Hshape.
    assert (Hlen : Py.len ((text, label) :: rest) = 1 + Py.len rest).
    { unfold Py.len. cbn [length]. lia. }
    pose proof (len_nonneg rest) as Hrest0.
    replace (i + 1 =? num_texts) with false
      by (symmetry; apply Z.eqb_neq; lia).
    rewrite orb_false_r.
    replace (i + Py.len ((text, label) :: rest)) with (i + 1 + Py.len rest) by lia.
    destruct (mod_succ i batch_size Hb Hi0) as [[Hm0 Hfull] | [Hm1 Hroom]].
    + rewrite Hm0. cbn [Z.eqb].
      rewrite (array_of_arrays_uniform inner)
        by (try apply Forall_app; try split; auto;
            destruct embeddings; discriminate).
      destruct (IH (i + 1) [] []
                   (append_blocks fs filename
                      [Np.stacked inner (embeddings ++ [e]);
                       Np.array_of_ints F (all_labels ++ [label])])
                   (batches ++ [(embeddings ++ [e], all_labels ++ [label])]))
        as (fs' & flushed & left_e & left_l & Hrun & Hcont & Hfull' & He & Hl & Hlefte & Hleft);
        [ lia | lia
        | rewrite contents_append_blocks, Hfs, batch_blocks_snoc; reflexivity
        | constructor | exact Hrest
        | rewrite Hm0; reflexivity | rewrite Hm0; reflexivity | ].
      exists fs', ((embeddings ++ [e], all_labels ++ [label]) :: flushed),
             left_e, left_l.
      rewrite Hrun. rewrite <- app_assoc in Hcont. cbn [app] in Hcont.
      split; [reflexivity|]. split; [exact Hcont|].
      split; [|split; [|split; [|split]]].
      * constructor; [|exact Hfull'].
        cbn [fst snd]. rewrite !len_app, Hfe, Hfl.
        change (Py.len [e]) with 1. change (Py.len [label]) with 1. lia.
      * cbn [map fst concat]. rewrite <- !app_assoc. rewrite He.
        reflexivity.
      * cbn [map snd concat]. rewrite <- !app_assoc. rewrite Hl.
        reflexivity.
      * exact Hlefte.
      * exact Hleft.
    + replace ((i + 1) mod batch_size =? 0) with false
        by (symmetry; apply Z.eqb_neq;
            pose proof (Z.mod_pos_bound i batch_size Hb); lia).
      destruct (IH (i + 1) (embeddings ++ [e]) (all_labels ++ [label])
                   fs batches)
        as (fs' & flushed & left_e & left_l & Hrun & Hcont & Hfull' & He & Hl & Hlefte & Hleft);
        [ lia | lia | exact Hfs
        | apply Forall_app; split; [exact Hbuf | repeat constructor; exact Hshape]
        | exact Hrest
        | rewrite len_app, Hfe, Hm1; reflexivity
        | rewrite len_app, Hfl, Hm1; reflexivity | ].
      exists fs', flushed, left_e, left_l. rewrite Hrun.
      split; [reflexivity|]. split; [exact Hcont|].
      split; [exact Hfull'|].
      split; [|split; [|split]].
      * rewrite He. cbn [map fst]. rewrite <- app_assoc. reflexivity.
      * rewrite Hl. cbn [map snd]. rewrite <- app_assoc. reflexivity.
      * exact Hlefte.
      * exact Hleft.
Qed.

End WriterRuns.

(** X15: two runs of the writer on one destination, each with its own batch
    size, store the records of the first run followed by those of the
    second; the reader returns them all in that order.  Run twice on the
    same input, the writer therefore stores every record twice. *)
Theorem vectorize_text_twice {F : Type} (bert_model : BertModel F)
    (tokenizer : Tokenizer) (texts1 texts2 : list (list Z))
    (labels1 labels2 : list Z) (filename : string)
    (batch_size1 batch_size2 : Z) (fs : filesystem F) (inner : list nat) :
  texts1 <> [] -> texts2 <> [] ->
  length texts1 = length labels1 -> length texts2 = length labels2 ->
  0 < batch_size1 -> 0 < batch_size2 ->
  fresh fs filename ->
  Forall (fun text => Np.shape (embed bert_model tokenizer text) = inner)
         (texts1 ++ texts2) ->
  Forall Np.is_int32 (labels1 ++ labels2) ->
  exists fs1 fs2,
    vectorize_text bert_model tokenizer texts1 labels1 filename batch_size1 fs
    = (fs1, Ok []) /\
    vectorize_text bert_model tokenizer texts2 labels2 filename batch_size2 fs1
    = (fs2, Ok []) /\
    load_embeddings_and_labels filename fs2
    = Ok (Np.mk_ndarray
            (length (texts1 ++ texts2) :: inner)
            (concat (map (@Np.data F)
                         (map (embed bert_model tokenizer) (texts1 ++ texts2)))),
          Np.mk_ndarray [length (labels1 ++ labels2)]
                        (map Np.Int32 (labels1 ++ labels2))).
Proof.
  intros Hne1 Hne2 Hlen1 Hlen2 Hb1 Hb2 Hfresh Hshape Hrange.
  apply Forall_app in Hshape. destruct Hshape as [Hshape1 Hshape2].
  destruct (vectorize_text_flushes bert_model tokenizer filename inner
              texts1 labels1 batch_size1 fs [] Hne1 Hlen1 Hb1)
    as (fs1 & flushed1 & Hrun1 & Hsome1 & He1 & Hl1).
  { destruct Hfresh as [H | H]; unfold contents; rewrite H; reflexivity. }
  { exact Hshape1. }
  cbn [app] in Hsome1.
  destruct (vectorize_text_flushes bert_model tokenizer filename inner
              texts2 labels2 batch_size2 fs1 flushed1 Hne2 Hlen2 Hb2)
    as (fs2 & flushed2 & Hrun2 & Hsome2 & He2 & Hl2).
  { unfold contents. rewrite Hsome1. reflexivity. }
  { exact Hshape2. }
  exists fs1, fs2. split; [exact Hrun1|]. split; [exact Hrun2|].
  rewrite (load_batch_blocks filename fs2 inner (flushed1 ++ flushed2));
    [| | exact Hsome2].
  - rewrite !map_app, !concat_app, He1, He2, Hl1, Hl2.
    rewrite array_of_ints_in_range by exact Hrange.
    unfold Np.stacked.
    rewrite ?map_app, ?concat_app, ?length_app, ?length_map. reflexivity.
  - intros Happ. apply app_eq_nil in Happ. destruct Happ as [-> _].
    cbn in He1. destruct texts1; [congruence | discriminate He1].
Qed.

Lemma vectorize_text_twice_witness :
  exists fs1 fs2,
    vectorize_text ex_bert_model ex_tokenizer ex_chunks ex_chunk_labels
                   "test_bert_embeddings.npy" 2 no_files
    = (fs1, Ok []) /\
    vectorize_text ex_bert_model ex_tokenizer ex_chunks ex_chunk_labels
                   "test_bert_embeddings.npy" 100 fs1
    = (fs2, Ok []) /\
    load_embeddings_and_labels "test_bert_embeddings.npy" fs2
    = Ok (Np.mk_ndarray
            (length (ex_chunks ++ ex_chunks) :: [1%nat; 2%nat])
            (concat (map (@Np.data Q)
                         (map (embed ex_bert_model ex_tokenizer)
                              (ex_chunks ++ ex_chunks)))),
          Np.mk_ndarray [length (ex_chunk_labels ++ ex_chunk_labels)]
                        (map Np.Int32 (ex_chunk_labels ++ ex_chunk_labels))).
Proof.
  apply (vectorize_text_twice ex_bert_model ex_tokenizer ex_chunks ex_chunks
           ex_chunk_labels ex_chunk_labels "test_bert_embeddings.npy" 2 100
           no_files [1%nat; 2%nat]).
  - discriminate.
  - discriminate.
  - reflexivity.
  - reflexivity.
  - lia.
  - lia.
  - left. reflexivity.
  - repeat constructor.
  - unfold ex_chunk_labels, Np.is_int32. repeat constructor; lia.
Defined.

(** X16: with fewer labels than chunks the loop ends before the index of
    the last chunk is reached, so the final flush never happens.  For
    32-bit labels the destination then holds only full batches, each of
    [batch_size] embeddings and [batch_size] labels, which are the first
    embeddings and labels in order; the last [len(labels) mod batch_size]
    records are embedded but not stored, and their labels are what the
    writer returns. *)
Theorem vectorize_text_short_labels {F : Type} (bert_model : BertModel F)
    (tokenizer : Tokenizer) (texts : list (list Z)) (labels : list Z)
    (filename : string) (batch_size : Z) (fs : filesystem F)
    (inner : list nat) :
  (length labels < length texts)%nat ->
  0 < batch_size ->
  fresh fs filename ->
  Forall (fun text => Np.shape (embed bert_model tokenizer text) = inner)
         texts ->
  Forall Np.is_int32 labels ->
  exists fs' flushed left_embeddings left_labels,
    vectorize_text bert_model tokenizer texts labels filename batch_size fs
    = (fs', Ok left_labels) /\
    contents fs' filename = batch_blocks inner flushed /\
    Forall (fun batch => Py.len (fst batch) = batch_size /\
                         Py.len (snd batch) = batch_size) flushed /\
    concat (map fst flushed) ++ left_embeddings
    = map (embed bert_model tokenizer) (firstn (length labels) texts) /\
    concat (map snd flushed) ++ left_labels = labels /\
    Py.len left_embeddings = Py.len labels mod batch_size /\
    Py.len left_labels = Py.len labels mod batch_size.
Proof.
  intros Hshort Hb Hfresh Hshape _.
  assert (Hzlen : Py.len (Py.zip texts labels) = Py.len labels).
  { unfold Py.len, Py.zip. rewrite length_combine. lia. }
  destruct (vectorize_loop_unfinished bert_model tokenizer filename inner
              batch_size (Py.len texts) (Py.zip texts labels) Hb
              0 [] [] fs [])
    as (fs' & flushed & left_e & left_l & Hrun & Hcont & Hfull & He & Hl
        & Hlefte & Hleft).
  - lia.
  - rewrite Hzlen. unfold Py.len. lia.
  - destruct Hfresh as [H | H]; unfold contents; rewrite H; reflexivity.
  - constructor.
  - apply zip_shapes. exact Hshape.
  - rewrite Z.mod_0_l by lia. reflexivity.
  - rewrite Z.mod_0_l by lia. reflexivity.
  - exists fs', flushed, left_e, left_l. split; [exact Hrun|].
    split; [exact Hcont|]. split; [exact Hfull|].
    cbn [app] in He, Hl. rewrite Z.add_0_l, Hzlen in Hlefte, Hleft.
    split; [|split; [|split]].
    + rewrite He, <- (map_map fst (embed bert_model tokenizer)).
      rewrite zip_fst_firstn. reflexivity.
    + rewrite zip_snd in Hl by lia. exact Hl.
    + exact Hlefte.
    + exact Hleft.
Qed.

Lemma vectorize_text_short_labels_witness :
  exists fs' flushed left_embeddings left_labels,
    vectorize_text ex_bert_model ex_tokenizer
                   ([[101]; [101; 102]; [101; 5; 102]; [101; 6; 102]])
                   ex_chunk_labels "test_bert_embeddings.npy" 2 no_files
    = (fs', Ok left_labels) /\
    contents fs' "test_bert_embeddings.npy" = batch_blocks [1%nat; 2%nat] flushed /\
    Forall (fun batch => Py.len (fst batch) = 2 /\ Py.len (snd batch) = 2)
           flushed /\
    concat (map fst flushed) ++ left_embeddings
    = map (embed ex_bert_model ex_tokenizer)
          (firstn (length ex_chunk_labels)
                  ([[101]; [101; 102]; [101; 5; 102]; [101; 6; 102]])) /\
    concat (map snd flushed) ++ left_labels = ex_chunk_labels /\
    Py.len left_embeddings = Py.len ex_chunk_labels mod 2 /\
    Py.len left_labels = Py.len ex_chunk_labels mod 2.
Proof.
  apply (vectorize_text_short_labels ex_bert_model ex_tokenizer
           ([[101]; [101; 102]; [101; 5; 102]; [101; 6; 102]])
           ex_chunk_labels "test_bert_embeddings.npy" 2 no_files
           [1%nat; 2%nat]).
  - cbn. lia.
  - lia.
  - left. reflexivity.
  - repeat constructor.
  - unfold ex_chunk_labels, Np.is_int32. repeat constructor; lia.
Defined.

(** X17: the reader makes no check between the two blocks of a batch-pair:
    on one or more pairs whose embedding blocks agree after the first
    axis and whose label blocks are one-dimensional, it returns arrays
    whose row counts are the sum over the embedding blocks and the sum
    over the label blocks, equal or not. *)
Theorem load_rows_unchecked {F : Type} (file_path : string)
    (fs : filesystem F) (inner : list nat)
    (pairs : list (Np.ndarray F * Np.ndarray F)) (tail : Np.file F) :
  fs file_path = Some (pair_blocks pairs ++ tail) ->
  (length tail <= 1)%nat ->
  pairs <> [] ->
  Forall (fun p => (exists n, Np.shape (fst p) = n :: inner) /\
                   (exists m, Np.shape (snd p) = [m])) pairs ->
  exists embeddings labels,
    load_embeddings_and_labels file_path fs = Ok (embeddings, labels) /\
    Np.rows embeddings
    = fold_left Nat.add (map (fun p => Np.rows (fst p)) pairs) 0%nat /\
    Np.rows labels
    = fold_left Nat.add (map (fun p => Np.rows (snd p)) pairs) 0%nat.
Proof.
  intros Hfs Htail Hne Hwf.
  unfold load_embeddings_and_labels. rewrite Hfs.
  rewrite read_loop_pairs by exact Htail. cbn [app].
  rewrite (concatenate_uniform inner), (concatenate_uniform []).
  - cbn [bind]. do 2 eexists. split; [reflexivity|].
    cbn [Np.rows Np.shape hd]. rewrite !map_map. split; reflexivity.
  - destruct pairs; [congruence | discriminate].
  - apply Forall_forall. intros a Ha. apply in_map_iff in Ha.
    destruct Ha as (p & <- & Hp).
    rewrite Forall_forall in Hwf. destruct (Hwf p Hp) as (_ & Hm). exact Hm.
  - destruct pairs; [congruence | discriminate].
  - apply Forall_forall. intros a Ha. apply in_map_iff in Ha.
    destruct Ha as (p & <- & Hp).
    rewrite Forall_forall in Hwf. destruct (Hwf p Hp) as (Hn & _). exact Hn.
Qed.

Lemma load_rows_unchecked_witness :
  exists embeddings labels,
    load_embeddings_and_labels "train_bert_embeddings.npy"
      (fun _ => Some [ex_embedding_block;
                      Np.array_of_ints Q [0; 1; 1]])
    = Ok (embeddings, labels) /\
    Np.rows embeddings
    = fold_left Nat.add
        (map (fun p => Np.rows (fst p))
             [(ex_embedding_block, Np.array_of_ints Q [0; 1; 1])]) 0%nat /\
    Np.rows labels
    = fold_left Nat.add
        (map (fun p => Np.rows (snd p))
             [(ex_embedding_block, Np.array_of_ints Q [0; 1; 1])]) 0%nat.
Proof.
  apply (load_rows_unchecked "train_bert_embeddings.npy"
           (fun _ => Some [ex_embedding_block; Np.array_of_ints Q [0; 1; 1]])
           [1%nat; 2%nat]
           [(ex_embedding_block, Np.array_of_ints Q [0; 1; 1])] []).
  - reflexivity.
  - cbn. lia.
  - discriminate.
  - repeat constructor.
    + exists 2%nat. reflexivity.
    + exists 3%nat. reflexivity.
Defined.

(** X18: a store in which two batch-pairs disagree on the shape of one
    embedding cannot be read: [np.concatenate] raises [ValueError]. *)
Theorem load_inner_shape_mismatch {F : Type} (file_path : string)
    (fs : filesystem F)
    (first : Np.ndarray F * Np.ndarray F)
    (pairs : list (Np.ndarray F * Np.ndarray F)) (tail : Np.file F)
    (other : Np.ndarray F * Np.ndarray F)
    (n m : nat) (inner inner' : list nat) :
  fs file_path = Some (pair_blocks (first :: pairs) ++ tail) ->
  (length tail <= 1)%nat ->
  In other pairs ->
  Np.shape (fst first) = n :: inner ->
  Np.shape (fst other) = m :: inner' ->
  inner' <> inner ->
  load_embeddings_and_labels file_path fs = Raise ValueError.
Proof.
  intros Hfs Htail Hin Hfirst Hother Hdiff.
  unfold load_embeddings_and_labels. rewrite Hfs.
  rewrite read_loop_pairs by exact Htail. cbn [app map].
  unfold Np.concatenate at 1. rewrite Hfirst.
  replace (forallb _ (map fst pairs)) with false; [reflexivity|].
  symmetry. apply not_true_is_false. intros Hall.
  rewrite forallb_forall in Hall.
  specialize (Hall (fst other) (in_map fst _ _ Hin)).
  rewrite Hother in Hall. unfold Np.same_shape in Hall.
  destruct (list_eq_dec Nat.eq_dec inner' inner); [contradiction | discriminate].
Qed.

Lemma load_inner_shape_mismatch_witness :
  load_embeddings_and_labels "train_bert_embeddings.npy"
    (fun _ => Some [ex_embedding_block; ex_label_block;
                    Np.mk_ndarray [1%nat; 3%nat] []; ex_label_block])
  = Raise ValueError.
Proof.
  apply (load_inner_shape_mismatch "train_bert_embeddings.npy"
           (fun _ => Some [ex_embedding_block; ex_label_block;
                           Np.mk_ndarray [1%nat; 3%nat] []; ex_label_block])
           (ex_embedding_block, ex_label_block)
           [(Np.mk_ndarray [1%nat; 3%nat] [], ex_label_block)] []
           (Np.mk_ndarray [1%nat; 3%nat] [], ex_label_block)
           2%nat 1%nat [1%nat; 2%nat] [3%nat]).
  - reflexivity.
  - cbn. lia.
  - left. reflexivity.
  - reflexivity.
  - reflexivity.
  - discriminate.
Defined.
